(** * pipeline/pipeline.py: the workshop pipeline script

    The script prints its argument vector, parses [sys.argv[1]] with
    [int], prints the parsed day, builds a two-row DataFrame, adds the
    column [month] holding the constant 2, prints the head of the frame
    and writes the frame to [output_2.parquet].

    The script is embedded as a computation in a small state-and-exception
    monad over a [world] (the log of I/O operations and the files on disk).
    Python strings are lists of code points.  The builtin [int] follows
    CPython ([PyLong_FromUnicodeObject] and [PyLong_FromString] in
    Objects/longobject.c) and the library reference, which lets the text
    have a sign, leading zeros, surrounding white space and single
    underscores between digits.  The tables of the Unicode database that
    [int] consults and the interpreter's limit on the number of digits of
    an integer string are not part of the repository: they are fields of a
    [runtime] record that every run takes as a parameter.  Writing to the
    standard output is taken to succeed, and so is everything in
    [to_parquet] but the write to the file system, which can be refused
    before the file is opened or after it has been opened and emptied. *)

From Stdlib Require Import ZArith NArith Lia Ascii String DecimalString.
From Stdlib Require DecimalFacts DecimalPos.
From stdpp Require Import base option list gmap.

Local Open Scope Z_scope.

(** ** Python strings *)

Module Str.

(** A Python [str] is a sequence of Unicode code points. *)
Definition str := list N.

(** A source literal, as the code points of its (ASCII) characters. *)
Definition lit (s : string) : str := List.map N_of_ascii (list_ascii_of_string s).

(** [str(z)] for an [int]: the decimal digits, with [-] when negative. *)
Definition of_int (z : Z) : str := lit (NilZero.string_of_int (Z.to_int z)).

End Str.
Export Str.

(** ** The interpreter's tables *)

(** [unicode_isspace] and [unicode_todecimal] are the Unicode database
    look-ups [Py_UNICODE_ISSPACE] and [Py_UNICODE_TODECIMAL], which [int]
    consults for the code points from 127 on; [int_max_str_digits] is
    [sys.flags.int_max_str_digits] (0 switches the limit off, which is also
    how an interpreter without the limit behaves).  [Py_UNICODE_TODECIMAL]
    yields a digit from 0 to 9 or nothing. *)
Inductive digit := D0 | D1 | D2 | D3 | D4 | D5 | D6 | D7 | D8 | D9.

Definition digit_to_N (d : digit) : N :=
  match d with
  | D0 => 0 | D1 => 1 | D2 => 2 | D3 => 3 | D4 => 4
  | D5 => 5 | D6 => 6 | D7 => 7 | D8 => 8 | D9 => 9
  end.

Record runtime := Runtime {
  unicode_isspace : N -> bool;
  unicode_todecimal : N -> option digit;
  int_max_str_digits : N
}.

(** ** [int(s)] on a string, base 10 *)

Module PyInt.

(** [Py_ISSPACE]: space, and the controls from TAB to CR. *)
Definition Py_ISSPACE (c : N) : bool :=
  ((c =? 32) || ((9 <=? c) && (c <=? 13)))%N.

(** [_PyLong_DigitValue] restricted to base 10. *)
Definition digit_value (c : N) : option Z :=
  if ((48 <=? c) && (c <=? 57))%N then Some (Z.of_N c - 48) else None.

Definition plus : N := 43.
Definition minus : N := 45.
Definition underscore : N := 95.
Definition question : N := 63.

Section WithRuntime.
Variable rt : runtime.

(** [_PyUnicode_TransformDecimalAndSpaceToASCII]: code points below 127
    are kept, a Unicode space becomes a blank, a Unicode decimal digit
    becomes the ASCII digit of its value, and at anything else the
    output gets a question mark and is cut off there. *)
Fixpoint transform (s : str) : str :=
  match s with
  | [] => []
  | ch :: rest =>
      if (ch <? 127)%N then ch :: transform rest
      else if unicode_isspace rt ch then 32%N :: transform rest
      else match unicode_todecimal rt ch with
           | Some d => (48 + digit_to_N d)%N :: transform rest
           | None => [question]
           end
  end.

(** The two loops that skip white space. *)
Fixpoint skip_space (s : str) : str :=
  match s with
  | c :: rest => if Py_ISSPACE c then skip_space rest else s
  | [] => []
  end.

(** The optional sign: the factor and the rest of the text. *)
Definition read_sign (s : str) : Z * str :=
  match s with
  | c :: rest =>
      if (c =? plus)%N then (1, rest)
      else if (c =? minus)%N then (-1, rest)
      else (1, s)
  | [] => (1, s)
  end.

(** The loop over digits and underscores in [long_from_string_base]:
    [prev_us] says that the previous character was an underscore, [acc]
    is the value read so far and [digits] the number of digits.  Two
    underscores in a row and an underscore at the end are errors. *)
Fixpoint scan (prev_us : bool) (acc : Z) (digits : N) (s : str)
  : option (Z * N * str) :=
  match s with
  | c :: rest =>
      if (c =? underscore)%N then
        if prev_us then None else scan true acc digits rest
      else match digit_value c with
           | Some d => scan false (acc * 10 + d) (digits + 1)%N rest
           | None => if prev_us then None else Some (acc, digits, s)
           end
  | [] => if prev_us then None else Some (acc, digits, s)
  end.

(** The check against [int_max_str_digits], made only above the
    threshold of 640 digits. *)
Definition too_many_digits (digits : N) : bool :=
  ((640 <? digits) && (0 <? int_max_str_digits rt)
   && (int_max_str_digits rt <? digits))%N.

(** [long_from_string_base] for base 10: no underscore in front, at
    least one digit, not more digits than the limit allows.  The
    result is the value and the text left. *)
Definition long_from_string_base (s : str) : option (Z * str) :=
  match s with
  | c :: _ =>
      if (c =? underscore)%N then None else
      match scan false 0 0%N s with
      | None => None
      | Some (v, digits, rest) =>
          if (digits =? 0)%N then None
          else if too_many_digits digits then None
          else Some (v, rest)
      end
  | [] => None
  end.

(** [PyLong_FromString] with base 10, on the transformed text: white
    space, sign, digits, white space, and nothing after that.  [None]
    is the error return, which [int] turns into [ValueError]. *)
Definition PyLong_FromString (s : str) : option Z :=
  let '(sign, s2) := read_sign (skip_space s) in
  match long_from_string_base s2 with
  | None => None
  | Some (v, s3) =>
      match skip_space s3 with
      | [] => Some (sign * v)
      | _ :: _ => None
      end
  end.

(** [int(s)]: [PyLong_FromUnicodeObject]. *)
Definition int (s : str) : option Z := PyLong_FromString (transform s).

End WithRuntime.

End PyInt.

(** A runtime with a handful of entries of the Unicode tables: the
    no-break space, the ideographic space, the Arabic-Indic digits and the
    fullwidth digits; the digit limit is CPython's default. *)
Definition digit_of_N (n : N) : digit :=
  match n with
  | 0 => D0 | 1 => D1 | 2 => D2 | 3 => D3 | 4 => D4
  | 5 => D5 | 6 => D6 | 7 => D7 | 8 => D8 | _ => D9
  end%N.

Definition sample_runtime : runtime :=
  {| unicode_isspace := fun c => ((c =? 160) || (c =? 12288))%N;
     unicode_todecimal := fun c =>
       if ((1632 <=? c) && (c <=? 1641))%N then Some (digit_of_N (c - 1632))
       else if ((65296 <=? c) && (c <=? 65305))%N then Some (digit_of_N (c - 65296))
       else None;
     int_max_str_digits := 4300 |}.

(** ** Data frames *)

Module Pandas.

(** A frame with a [RangeIndex]: the number of rows and the columns in
    their order, each a label and its cells.  Every cell the script
    creates is an integer. *)
Record DataFrame := Frame {
  nrows : nat;
  columns : list (str * list Z)
}.

#[global] Instance DataFrame_eq_dec : EqDecision DataFrame.
Proof. solve_decision. Defined.

(** [pd.DataFrame({"k1": [..], "k2": [..]})]: the columns are the dict's
    items in insertion order and the index ranges over the length of the
    lists (all of the same length in the script). *)
Definition from_dict (d : list (str * list Z)) : DataFrame :=
  {| nrows := match d with (_, cells) :: _ => length cells | [] => 0%nat end;
     columns := d |}.

(** Replace the cells of column [k] where it is, or add it at the end. *)
Fixpoint set_column (k : str) (cells : list Z) (cols : list (str * list Z))
  : list (str * list Z) :=
  match cols with
  | [] => [(k, cells)]
  | (k', old) :: rest =>
      if decide (k' = k) then (k, cells) :: rest
      else (k', old) :: set_column k cells rest
  end.

(** [df[k] = v] for a scalar [v]: the value is broadcast to every row. *)
Definition setitem (df : DataFrame) (k : str) (v : Z) : DataFrame :=
  {| nrows := nrows df;
     columns := set_column k (repeat v (nrows df)) (columns df) |}.

(** [df.head(n)]: the first [n] rows. *)
Definition head (n : nat) (df : DataFrame) : DataFrame :=
  {| nrows := Nat.min n (nrows df);
     columns := List.map (fun '(k, cells) => (k, firstn n cells)) (columns df) |}.

(** The labels, and the rows as lists of cells in column order. *)
Definition labels (df : DataFrame) : list str := List.map fst (columns df).

Definition row (df : DataFrame) (i : nat) : list Z :=
  List.map (fun '(_, cells) => nth i cells 0) (columns df).

Definition rows (df : DataFrame) : list (list Z) :=
  List.map (row df) (seq 0 (nrows df)).

(** The cells of a column, by label. *)
Fixpoint column (k : str) (cols : list (str * list Z)) : option (list Z) :=
  match cols with
  | [] => None
  | (k', cells) :: rest => if decide (k' = k) then Some cells else column k rest
  end.

End Pandas.
Export Pandas.

(** ** The world of a run *)

(** What [print] can be given in the script. *)
Inductive value :=
| VStr (s : str)
| VList (l : list str)
| VFrame (df : DataFrame).

(** The I/O operations a run issues, in the order it issues them: the
    calls of [print] with their arguments, and the calls of [to_parquet]
    with the path and the table, logged when the call is made. *)
Inductive event :=
| EPrint (args : list value)
| EWrite (path : str) (df : DataFrame).

(** The exceptions the script can end with. *)
Inductive exn := IndexError | ValueError | OSError.

(** What a file on disk holds: the table written to it, or what a write
    that failed after opening the file has left of it, an empty or cut-off
    file that holds no table. *)
Inductive file :=
| Table (df : DataFrame)
| Truncated.

(** The log of operations, oldest first; the files on disk; the paths at
    which the file system refuses a write (no permission, disk full, ...);
    and, among those, the paths at which the refusal comes only after the
    file has been opened for writing, and so emptied. *)
Record world := World {
  trace : list event;
  files : gmap str file;
  refused : gset str;
  truncating : gset str
}.

(** ** Computations: state and exceptions *)

Inductive result (A : Type) :=
| Ok (a : A)
| Raise (e : exn).
Arguments Ok {A} a.
Arguments Raise {A} e.

Definition M (A : Type) : Type := world -> result A * world.

Definition ret {A} (a : A) : M A := fun w => (Ok a, w).

Definition raise {A} (e : exn) : M A := fun w => (Raise e, w).

Definition bind {A B} (m : M A) (k : A -> M B) : M B :=
  fun w => match m w with
           | (Ok a, w') => k a w'
           | (Raise e, w') => (Raise e, w')
           end.

Notation "x <- m ;; k" := (bind m (fun x => k))
  (at level 100, m at next level, right associativity).
Notation "m ;; k" := (bind m (fun _ => k))
  (at level 100, right associativity).

Definition emit (e : event) : M unit :=
  fun w => (Ok tt, {| trace := trace w ++ [e]; files := files w;
                      refused := refused w; truncating := truncating w |}).

(** [print(a, b, ...)], logged with its arguments as they are. *)
Definition print (args : list value) : M unit := emit (EPrint args).

(** [l[i]] on a list: [IndexError] out of range. *)
Definition getitem (l : list str) (i : nat) : M str :=
  match l !! i with
  | Some x => ret x
  | None => raise IndexError
  end.

(** What a refused write at [path] leaves: the world as it was when the
    file could not be opened, and an emptied or cut-off file at [path]
    when the failure came after the file was opened. *)
Definition spoil (path : str) (w : world) : world :=
  if decide (path ∈ truncating w)
  then {| trace := trace w; files := <[path := Truncated]> (files w);
          refused := refused w; truncating := truncating w |}
  else w.

(** [df.to_parquet(path)]: the write is issued; the file system either
    refuses it, and [OSError] is raised with the file left as [spoil]
    says, or the file at [path] now holds the table, whatever it held
    before. *)
Definition to_parquet (df : DataFrame) (path : str) : M unit :=
  emit (EWrite path df) ;;
  fun w =>
    if decide (path ∈ refused w) then (Raise OSError, spoil path w)
    else (Ok tt, {| trace := trace w; files := <[path := Table df]> (files w);
                    refused := refused w; truncating := truncating w |}).

(** ** The script *)

Section Script.
Variable rt : runtime.

(** [int(...)]: [ValueError] when the text is not accepted. *)
Definition int (s : str) : M Z :=
  match PyInt.int rt s with
  | Some z => ret z
  | None => raise ValueError
  end.

(** The module body, statement by statement.  [argv] is [sys.argv]: the
    script's name followed by the command-line arguments.  (The first
    line imports [calendar.month], which the assignment to [month]
    shadows before any use.  Formatting [day] cannot run into the digit
    limit: the text it was read from was within it.) *)
Definition main (argv : list str) : M unit :=
  print [VStr (lit "arguments"); VList argv] ;;
  arg <- getitem argv 1 ;;
  day <- int arg ;;
  print [VStr (lit "Running pipeline for day " ++ of_int day)] ;;
  let df := from_dict [(lit "day", [1; 2]); (lit "num_passengers", [3; 4])] in
  let month := 2 in
  let df := setitem df (lit "month") month in
  print [VFrame (head 5 df)] ;;
  to_parquet df (lit "output_" ++ of_int month ++ lit ".parquet").

(** The exit status of the process: 0, or 1 after an uncaught
    exception. *)
Definition exit_status {A} (r : result A) : Z :=
  match r with
  | Ok _ => 0
  | Raise _ => 1
  end.

Definition run (argv : list str) (w : world) : Z * world :=
  let '(r, w') := main argv w in (exit_status r, w').

End Script.

(** The file writes and the prints among the operations of a log. *)
Definition is_write (e : event) : bool :=
  match e with EWrite _ _ => true | EPrint _ => false end.

Definition is_print (e : event) : bool :=
  match e with EPrint _ => true | EWrite _ _ => false end.

Definition empty_world : world :=
  {| trace := []; files := ∅; refused := ∅; truncating := ∅ |}.

(** ** The literals of [int], as a grammar

    This part does not follow the code: it says, without reference to the
    parser, which texts are literals, so that the parser can be compared
    with it. *)

Module Literal.
Import PyInt.

(** How [int] reads a character. *)
Inductive char_class :=
| CSpace
| CSign (negative : bool)
| CUnderscore
| CDigit (d : Z)
| COther.

#[global] Instance char_class_eq_dec : EqDecision char_class.
Proof. solve_decision. Defined.

(** The reading of an ASCII character. *)
Definition ascii_class (c : N) : char_class :=
  if Py_ISSPACE c then CSpace
  else if (c =? plus)%N then CSign false
  else if (c =? minus)%N then CSign true
  else if (c =? underscore)%N then CUnderscore
  else match digit_value c with
       | Some d => CDigit d
       | None => COther
       end.

(** The reading of any code point, from 127 on through the Unicode
    tables. *)
Definition classify (rt : runtime) (c : N) : char_class :=
  if (c <? 127)%N then ascii_class c
  else if unicode_isspace rt c then CSpace
  else match unicode_todecimal rt c with
       | Some d => CDigit (Z.of_N (digit_to_N d))
       | None => COther
       end.

(** The body of a literal as the library reference has it: digits with
    single underscores between them.  The second list is the digits
    read. *)
Inductive grouped : list char_class -> list Z -> Prop :=
| grouped_one d : grouped [CDigit d] [d]
| grouped_digit d cs ds : grouped cs ds -> grouped (CDigit d :: cs) (d :: ds)
| grouped_us d cs ds :
    grouped cs ds -> grouped (CDigit d :: CUnderscore :: cs) (d :: ds).

(** The body of a literal in the words of the specification, a decimal
    integer: digits only, at least one. *)
Definition plain (cs : list char_class) (ds : list Z) : Prop :=
  cs = List.map CDigit ds /\ ds <> [].

(** The optional sign and its factor. *)
Inductive signed : list char_class -> Z -> Prop :=
| signed_none : signed [] 1
| signed_plus : signed [CSign false] 1
| signed_minus : signed [CSign true] (-1).

(** The number a sequence of decimal digits denotes. *)
Definition decimal (ds : list Z) : Z := fold_left (fun a d => a * 10 + d) ds 0.

(** White space, an optional sign, a body of digits, white space; the
    parameter [body] says what a body of digits is. *)
Definition literal (body : list char_class -> list Z -> Prop)
           (cs : list char_class) (sg : Z) (ds : list Z) : Prop :=
  exists sp1 s b sp2,
    cs = sp1 ++ s ++ b ++ sp2 /\
    Forall (eq CSpace) sp1 /\ signed s sg /\ body b ds /\ Forall (eq CSpace) sp2.

(** The ASCII characters that [skip_space] passes over. *)
Definition is_space (c : N) : Prop := CSpace = ascii_class c.

(** The value of the digits [ds] read after the value [acc]. *)
Definition extend (acc : Z) (ds : list Z) : Z :=
  fold_left (fun a d => a * 10 + d) ds acc.

(** What the scan has read when it returns: after an underscore, a
    group; otherwise nothing, a group, or an underscore and a group. *)
Definition scanned (prev_us : bool) (b : list char_class) (ds : list Z) : Prop :=
  if prev_us then grouped b ds
  else (b = [] /\ ds = []) \/ grouped b ds \/
       exists b', b = CUnderscore :: b' /\ grouped b' ds.

(** The texts at which the scan stops at once. *)
Definition stops (t : str) : Prop :=
  match t with
  | [] => True
  | c :: _ => ascii_class c = CSpace \/ ascii_class c = COther
              \/ exists b, ascii_class c = CSign b
  end.

(** The number of digits passes the check of the limit. *)
Definition within_limit (rt : runtime) (ds : list Z) : Prop :=
  too_many_digits rt (N.of_nat (length ds)) = false.

End Literal.

(** ** What a run is expected to do *)

(** The world after more operations have been logged. *)
Definition log (w : world) (evs : list event) : world :=
  {| trace := trace w ++ evs; files := files w;
     refused := refused w; truncating := truncating w |}.

(** The operations a run from [w] issues: what it adds to the log. *)
Definition issued (rt : runtime) (argv : list str) (w : world) : list event :=
  drop (length (trace w)) (trace (main rt argv w).2).

(** The table and the path of the specification. *)
Definition out_table : DataFrame :=
  {| nrows := 2;
     columns := [(lit "day", [1; 2]); (lit "num_passengers", [3; 4]);
                 (lit "month", [2; 2])] |}.

Definition out_path : str := lit "output_2.parquet".

(** The three prints and the write of a run that parsed [day]. *)
Definition print_arguments (argv : list str) : event :=
  EPrint [VStr (lit "arguments"); VList argv].

Definition print_day (day : Z) : event :=
  EPrint [VStr (lit "Running pipeline for day " ++ of_int day)].

Definition print_head : event := EPrint [VFrame out_table].

Definition write_table : event := EWrite out_path out_table.


(** ** Notions for the further properties *)

(** Every column of the frame has as many cells as the frame has rows. *)
Definition well_formed (df : DataFrame) : Prop :=
  Forall (fun col : str * list Z => length col.2 = nrows df) (columns df).

(** The digits of a decimal numeral of the standard library, most
    significant first, and the numeral of a list of digits. *)
Fixpoint digits_of_uint (u : Decimal.uint) : list Z :=
  match u with
  | Decimal.Nil => []
  | Decimal.D0 u => 0 :: digits_of_uint u
  | Decimal.D1 u => 1 :: digits_of_uint u
  | Decimal.D2 u => 2 :: digits_of_uint u
  | Decimal.D3 u => 3 :: digits_of_uint u
  | Decimal.D4 u => 4 :: digits_of_uint u
  | Decimal.D5 u => 5 :: digits_of_uint u
  | Decimal.D6 u => 6 :: digits_of_uint u
  | Decimal.D7 u => 7 :: digits_of_uint u
  | Decimal.D8 u => 8 :: digits_of_uint u
  | Decimal.D9 u => 9 :: digits_of_uint u
  end.

Fixpoint uint_of_digits (ds : list Z) : Decimal.uint :=
  match ds with
  | [] => Decimal.Nil
  | d :: ds =>
      match d with
      | 0 => Decimal.D0 | 1 => Decimal.D1 | 2 => Decimal.D2 | 3 => Decimal.D3
      | 4 => Decimal.D4 | 5 => Decimal.D5 | 6 => Decimal.D6 | 7 => Decimal.D7
      | 8 => Decimal.D8 | _ => Decimal.D9
      end (uint_of_digits ds)
  end.

(** The rest of [PyInt.PyLong_FromString] once the sign is read. *)
Definition after_sign (rt : runtime) (sign : Z) (t : str) : option Z :=
  match PyInt.long_from_string_base rt t with
  | None => None
  | Some (v, s3) =>
      match PyInt.skip_space s3 with
      | [] => Some (sign * v)
      | _ :: _ => None
      end
  end.

(** * Properties *)

(** ** The parser of [int] against the grammar *)

Module LiteralFacts.
Import PyInt Literal.

(** What the tests of the parser answer on a character of each class. *)
Lemma tests_of_class (c : N) :
  match ascii_class c with
  | CSpace => Py_ISSPACE c = true
  | CSign b =>
      Py_ISSPACE c = false /\ c = (if b then minus else plus)
  | CUnderscore => Py_ISSPACE c = false /\ c = underscore
  | CDigit d =>
      Py_ISSPACE c = false /\ (c =? plus)%N = false /\ (c =? minus)%N = false /\
      (c =? underscore)%N = false /\ digit_value c = Some d
  | COther =>
      Py_ISSPACE c = false /\ (c =? plus)%N = false /\ (c =? minus)%N = false /\
      (c =? underscore)%N = false /\ digit_value c = None
  end.
Proof.
  unfold ascii_class.
  destruct (Py_ISSPACE c) eqn:Hsp; [reflexivity|].
  destruct (c =? plus)%N eqn:Hp; [apply N.eqb_eq in Hp; auto|].
  destruct (c =? minus)%N eqn:Hm; [apply N.eqb_eq in Hm; auto|].
  destruct (c =? underscore)%N eqn:Hu; [apply N.eqb_eq in Hu; auto|].
  destruct (digit_value c); auto.
Qed.

Lemma digit_value_range c d : digit_value c = Some d -> 0 <= d <= 9.
Proof.
  unfold digit_value.
  destruct ((48 <=? c) && (c <=? 57))%N eqn:H; [|discriminate].
  intros [= <-]. apply andb_true_iff in H as [H1 H2].
  apply N.leb_le in H1, H2. lia.
Qed.

Lemma class_of_digit c d : digit_value c = Some d -> ascii_class c = CDigit d.
Proof.
  intros Hd. unfold ascii_class. rewrite Hd. revert Hd. unfold digit_value.
  destruct ((48 <=? c) && (c <=? 57))%N eqn:H; [|discriminate].
  intros _. apply andb_true_iff in H as [H1 H2]. apply N.leb_le in H1, H2.
  unfold Py_ISSPACE, plus, minus, underscore.
  rewrite (proj2 (N.eqb_neq c 32)), (proj2 (N.leb_gt c 13)) by lia.
  rewrite (proj2 (N.eqb_neq c 43)), (proj2 (N.eqb_neq c 45)) by lia.
  rewrite (proj2 (N.eqb_neq c 95)) by lia.
  by rewrite andb_false_r.
Qed.

Lemma skip_space_split t :
  exists ws, t = ws ++ skip_space t /\ Forall is_space ws.
Proof.
  induction t as [|c t [ws [Ht Hws]]]; [by exists []|].
  simpl. pose proof (tests_of_class c) as Hc.
  destruct (Py_ISSPACE c) eqn:Hsp.
  - exists (c :: ws). split; [simpl; congruence|].
    constructor; [|done]. unfold is_space.
    destruct (ascii_class c); try done; destruct Hc; congruence.
  - by exists [].
Qed.

Lemma skip_space_app ws t :
  Forall is_space ws -> skip_space (ws ++ t) = skip_space t.
Proof.
  induction 1 as [|c ws Hc _ IH]; [done|].
  simpl. pose proof (tests_of_class c) as Ht. rewrite <- Hc in Ht.
  by rewrite Ht.
Qed.

Lemma skip_space_all ws : Forall is_space ws -> skip_space ws = [].
Proof.
  intros H. rewrite <- (app_nil_r ws). by rewrite skip_space_app.
Qed.

Lemma skip_space_nil t : skip_space t = [] -> Forall is_space t.
Proof.
  intros H. destruct (skip_space_split t) as [ws [Ht Hws]].
  rewrite H, app_nil_r in Ht. by subst.
Qed.

Lemma skip_space_stay c t :
  ascii_class c <> CSpace -> skip_space (c :: t) = c :: t.
Proof.
  intros H. simpl. pose proof (tests_of_class c) as Ht.
  destruct (Py_ISSPACE c) eqn:Hsp; [|done].
  destruct (ascii_class c); try done; destruct Ht; congruence.
Qed.

(** *** The scan *)

Lemma scan_sound t : forall prev_us acc n v n' t3,
  scan prev_us acc n t = Some (v, n', t3) ->
  exists tb ds,
    t = tb ++ t3 /\ scanned prev_us (List.map ascii_class tb) ds /\
    v = extend acc ds /\ n' = (n + N.of_nat (length ds))%N.
Proof.
  induction t as [|c t IH]; intros prev_us acc n v n' t3; simpl.
  - destruct prev_us; [done|]. intros [= <- <- <-].
    exists [], []. repeat split; [by left | simpl; lia].
  - pose proof (tests_of_class c) as Hc.
    destruct (c =? underscore)%N eqn:Hu.
    + destruct prev_us; [done|]. intros H.
      apply IH in H as (tb & ds & -> & Hg & -> & ->).
      exists (c :: tb), ds. repeat split. simpl in *. right; right.
      exists (List.map ascii_class tb). split; [|done].
      apply N.eqb_eq in Hu. by rewrite Hu.
    + destruct (digit_value c) as [d|] eqn:Hd.
      * intros H. apply IH in H as (tb & ds & -> & Hg & -> & ->).
        exists (c :: tb), (d :: ds). repeat split; [|simpl length; lia].
        pose proof (class_of_digit c d Hd) as Hcd.
        assert (Hgr : grouped (List.map ascii_class (c :: tb)) (d :: ds)).
        { simpl. rewrite Hcd. simpl in Hg.
          destruct Hg as [[-> ->] | [Hg | (b' & -> & Hg)]].
          - constructor.
          - by constructor.
          - by constructor. }
        destruct prev_us; simpl; auto.
      * destruct prev_us; [done|]. intros [= <- <- <-].
        exists [], []. repeat split; [by left | simpl; lia].
Qed.

Lemma scan_stops acc n t :
  stops t -> scan false acc n t = Some (acc, n, t).
Proof.
  destruct t as [|c t]; [done|]. simpl. intros H.
  pose proof (tests_of_class c) as Hc.
  destruct H as [H | [H | [b H]]]; rewrite H in Hc.
  - unfold Py_ISSPACE, underscore, digit_value in *.
    destruct (c =? 95)%N eqn:Hu.
    { apply N.eqb_eq in Hu. subst c. discriminate. }
    destruct ((48 <=? c) && (c <=? 57))%N eqn:Hd; [|done].
    apply andb_true_iff in Hd as [H1 H2]. apply N.leb_le in H1, H2.
    apply orb_true_iff in Hc as [Hc | Hc].
    + apply N.eqb_eq in Hc. lia.
    + apply andb_true_iff in Hc as [_ Hc]. apply N.leb_le in Hc. lia.
  - destruct Hc as (_ & _ & _ & -> & ->). done.
  - destruct Hc as [_ ->]. by destruct b.
Qed.

Lemma scan_after_underscore tb ds acc n t :
  grouped (List.map ascii_class tb) ds ->
  scan true acc n (tb ++ t) = scan false acc n (tb ++ t).
Proof.
  intros Hg. destruct tb as [|c tb]; [inversion Hg|].
  simpl. pose proof (tests_of_class c) as Hc.
  assert (exists d, ascii_class c = CDigit d) as [d Hd].
  { inversion Hg; eauto. }
  rewrite Hd in Hc. destruct Hc as (_ & _ & _ & -> & ->). done.
Qed.

Lemma scan_complete b ds :
  grouped b ds -> forall tb acc n t,
  List.map ascii_class tb = b -> stops t ->
  scan false acc n (tb ++ t)
  = Some (extend acc ds, (n + N.of_nat (length ds))%N, t).
Proof.
  induction 1 as [d | d cs ds Hg IH | d cs ds Hg IH]; intros tb acc n t Hb Ht.
  - destruct tb as [|c [|? ?]]; try discriminate. injection Hb as Hc.
    pose proof (tests_of_class c) as Hc'. rewrite Hc in Hc'.
    destruct Hc' as (_ & _ & _ & Hu & Hd). simpl. rewrite Hu, Hd.
    rewrite scan_stops by done. do 3 f_equal; simpl length; lia.
  - destruct tb as [|c tb]; try discriminate. injection Hb as Hc Hb.
    pose proof (tests_of_class c) as Hc'. rewrite Hc in Hc'.
    destruct Hc' as (_ & _ & _ & Hu & Hd). simpl. rewrite Hu, Hd.
    rewrite (IH tb) by done. do 3 f_equal; simpl length; lia.
  - destruct tb as [|c [|u tb]]; try discriminate. injection Hb as Hc Hus Hb.
    pose proof (tests_of_class c) as Hc'. rewrite Hc in Hc'.
    destruct Hc' as (_ & _ & _ & Hu & Hd).
    pose proof (tests_of_class u) as Hu'. rewrite Hus in Hu'.
    destruct Hu' as [_ ->]. simpl. rewrite Hu, Hd. simpl.
    rewrite (scan_after_underscore tb ds) by (by rewrite Hb).
    rewrite (IH tb) by done. do 3 f_equal; simpl length; lia.
Qed.

Lemma grouped_nonempty b ds : grouped b ds -> ds <> [].
Proof. by destruct 1. Qed.

Lemma grouped_head b ds :
  grouped b ds -> exists d b', b = CDigit d :: b'.
Proof. destruct 1; eauto. Qed.

Lemma plain_grouped b ds : plain b ds -> grouped b ds.
Proof.
  intros [-> Hne]. induction ds as [|d [|d' ds] IH]; [done | constructor |].
  simpl. constructor. by apply IH.
Qed.

Lemma literal_plain_grouped cs sg ds :
  literal plain cs sg ds -> literal grouped cs sg ds.
Proof.
  intros (sp1 & s & b & sp2 & H). exists sp1, s, b, sp2.
  intuition auto using plain_grouped.
Qed.

Lemma literal_plain_no_underscore cs sg ds :
  literal plain cs sg ds -> ~ In CUnderscore cs.
Proof.
  intros (sp1 & s & b & sp2 & -> & Hsp1 & Hs & [-> _] & Hsp2) Hin.
  rewrite !in_app_iff in Hin. rewrite List.Forall_forall in Hsp1, Hsp2.
  destruct Hin as [Hin | [Hin | [Hin | Hin]]].
  - by apply Hsp1 in Hin.
  - inversion Hs; subst; simpl in Hin; intuition congruence.
  - apply in_map_iff in Hin as (d & Hd & _). discriminate.
  - by apply Hsp2 in Hin.
Qed.

Lemma space_stops t : Forall is_space t -> stops t.
Proof. destruct 1 as [|c t Hc _]; [done|]. left. by rewrite <- Hc. Qed.

Section WithRuntime.
Variable rt : runtime.

(** *** Digits *)

Lemma long_from_string_base_sound t v t3 :
  long_from_string_base rt t = Some (v, t3) ->
  exists tb ds,
    t = tb ++ t3 /\ grouped (List.map ascii_class tb) ds /\ within_limit rt ds /\ v = decimal ds.
Proof.
  unfold long_from_string_base. destruct t as [|c t]; [done|].
  destruct (c =? underscore)%N eqn:Hu; [done|].
  destruct (scan false 0 0 (c :: t)) as [[[v' n'] t']|] eqn:Hs; [|done].
  destruct (n' =? 0)%N eqn:Hn; [done|].
  destruct (too_many_digits rt n') eqn:Hl; [done|].
  intros [= <- <-]. apply N.eqb_neq in Hn.
  apply scan_sound in Hs as (tb & ds & Ht & Hg & -> & ->).
  exists tb, ds. rewrite N.add_0_l in Hl. split_and!; try done.
  destruct Hg as [[-> ->] | [Hg | (b' & Hb & Hg)]]; [done | done |].
  destruct tb as [|c' tb]; [done|]. simplify_eq/=.
  pose proof (tests_of_class c') as Hc. rewrite H in Hc.
  destruct Hc as [_ ->]. done.
Qed.

Lemma long_from_string_base_complete tb ds t :
  grouped (List.map ascii_class tb) ds -> within_limit rt ds -> stops t ->
  long_from_string_base rt (tb ++ t) = Some (decimal ds, t).
Proof.
  intros Hg Hl Ht. unfold long_from_string_base.
  rewrite (scan_complete _ _ Hg tb 0 0%N t eq_refl Ht).
  destruct (grouped_head _ _ Hg) as (d & b' & Hb).
  destruct tb as [|c tb]; [done|]. simpl in Hb. injection Hb as Hc _.
  pose proof (tests_of_class c) as Hc'. rewrite Hc in Hc'.
  destruct Hc' as (_ & _ & _ & Hu & _). cbn [app]. rewrite Hu.
  rewrite N.add_0_l. unfold within_limit in Hl. rewrite Hl.
  destruct (N.of_nat (length ds) =? 0)%N eqn:Hn; [|done].
  apply N.eqb_eq in Hn. apply grouped_nonempty in Hg.
  destruct ds; [done | simpl in Hn; lia].
Qed.

(** *** The sign *)

Lemma read_sign_sound t sg t2 :
  read_sign t = (sg, t2) ->
  exists ts, t = ts ++ t2 /\ signed (List.map ascii_class ts) sg.
Proof.
  unfold read_sign. destruct t as [|c t].
  - intros [= <- <-]. exists []. split; [done | constructor].
  - destruct (c =? plus)%N eqn:Hp.
    { apply N.eqb_eq in Hp as ->. intros [= <- <-].
      exists [plus]. split; [done | constructor]. }
    destruct (c =? minus)%N eqn:Hm.
    { apply N.eqb_eq in Hm as ->. intros [= <- <-].
      exists [minus]. split; [done | constructor]. }
    intros [= <- <-]. exists []. split; [done | constructor].
Qed.

Lemma read_sign_complete ts sg c t :
  signed (List.map ascii_class ts) sg ->
  (exists d, ascii_class c = CDigit d) ->
  read_sign (ts ++ c :: t) = (sg, c :: t).
Proof.
  intros Hs [d Hd]. pose proof (tests_of_class c) as Hc. rewrite Hd in Hc.
  destruct Hc as (_ & Hp & Hm & _).
  inversion Hs as [Hts | Hts | Hts].
  - symmetry in Hts. apply map_eq_nil in Hts as ->. simpl. by rewrite Hp, Hm.
  - destruct ts as [|p [|? ?]]; try discriminate. injection Hts as Hts.
    pose proof (tests_of_class p) as Hc. rewrite <- Hts in Hc.
    destruct Hc as [_ ->]. done.
  - destruct ts as [|p [|? ?]]; try discriminate. injection Hts as Hts.
    pose proof (tests_of_class p) as Hc. rewrite <- Hts in Hc.
    destruct Hc as [_ ->]. done.
Qed.

(** *** The whole text *)

Lemma PyLong_FromString_sound t v :
  PyLong_FromString rt t = Some v ->
  exists sg ds,
    literal grouped (List.map ascii_class t) sg ds /\ within_limit rt ds /\ v = sg * decimal ds.
Proof.
  unfold PyLong_FromString.
  destruct (skip_space_split t) as (ws & Ht & Hws).
  destruct (read_sign (skip_space t)) as [sg t2] eqn:Hsg.
  apply read_sign_sound in Hsg as (ts & Ht1 & Hts).
  destruct (long_from_string_base rt t2) as [[v' t3]|] eqn:Hb; [|done].
  apply long_from_string_base_sound in Hb as (tb & ds & Ht2 & Hg & Hl & ->).
  destruct (skip_space t3) eqn:Hsp; [|done]. intros [= <-].
  apply skip_space_nil in Hsp.
  exists sg, ds. split_and!; try done.
  exists (List.map ascii_class ws), (List.map ascii_class ts),
         (List.map ascii_class tb), (List.map ascii_class t3).
  split_and!; try done.
  - rewrite <- !List.map_app. congruence.
  - by apply Forall_map.
  - by apply Forall_map.
Qed.

Lemma PyLong_FromString_complete t sg ds :
  literal grouped (List.map ascii_class t) sg ds -> within_limit rt ds ->
  PyLong_FromString rt t = Some (sg * decimal ds).
Proof.
  intros (sp1 & s & b & sp2 & Ht & Hsp1 & Hs & Hg & Hsp2) Hl.
  apply map_eq_app in Ht as (t1 & r1 & -> & <- & Ht).
  apply map_eq_app in Ht as (ts & r2 & -> & <- & Ht).
  apply map_eq_app in Ht as (tb & t2 & -> & <- & <-).
  rewrite Forall_map in Hsp1, Hsp2.
  destruct (grouped_head _ _ Hg) as (d & b' & Hb).
  destruct tb as [|c tb]; [done|]. injection Hb as Hc _.
  unfold PyLong_FromString.
  rewrite skip_space_app by done.
  assert (Hstay : skip_space (ts ++ (c :: tb) ++ t2) = ts ++ (c :: tb) ++ t2).
  { destruct ts as [|p ts]; simpl app.
    - apply skip_space_stay. by rewrite Hc.
    - apply skip_space_stay. inversion Hs; congruence. }
  rewrite Hstay. simpl app. rewrite (read_sign_complete ts sg) by eauto.
  change (c :: tb ++ t2) with ((c :: tb) ++ t2).
  rewrite (long_from_string_base_complete _ ds) by auto using space_stops.
  by rewrite skip_space_all.
Qed.

(** *** Code points beyond ASCII *)

Lemma class_of_decimal (d : digit) :
  ascii_class (48 + digit_to_N d) = CDigit (Z.of_N (digit_to_N d)).
Proof. by destruct d. Qed.

Lemma transform_classes s :
  Forall (fun c => classify rt c <> COther) s ->
  List.map ascii_class (transform rt s) = List.map (classify rt) s.
Proof.
  induction 1 as [|c s Hc _ IH]; [done|].
  simpl. unfold classify in *.
  destruct (c <? 127)%N; [simpl; by rewrite IH|].
  destruct (unicode_isspace rt c); [simpl; by rewrite IH|].
  destruct (unicode_todecimal rt c) as [d|]; [|done].
  simpl. by rewrite IH, class_of_decimal.
Qed.

Lemma transform_other s :
  Exists (fun c => classify rt c = COther) s ->
  In COther (List.map ascii_class (transform rt s)).
Proof.
  induction s as [|c s IH]; intros H; [by apply Exists_nil in H|].
  simpl. unfold classify in *.
  destruct (c <? 127)%N eqn:Hlt.
  { apply Exists_cons in H as [H | H]; simpl; [left | right]; auto.
    rewrite Hlt in H. done. }
  destruct (unicode_isspace rt c) eqn:Hsp.
  { apply Exists_cons in H as [H | H]; simpl; [|right; auto].
    rewrite Hlt, Hsp in H. done. }
  destruct (unicode_todecimal rt c) as [d|] eqn:Hd; [|by left].
  apply Exists_cons in H as [H | H]; simpl; [|right; auto].
  rewrite Hlt, Hsp, Hd in H. done.
Qed.

Lemma grouped_no_other b ds : grouped b ds -> ~ In COther b.
Proof. induction 1; simpl; intuition congruence. Qed.

Lemma literal_no_other cs sg ds : literal grouped cs sg ds -> ~ In COther cs.
Proof.
  intros (sp1 & s & b & sp2 & -> & Hsp1 & Hs & Hg & Hsp2) Hin.
  rewrite !in_app_iff in Hin. rewrite List.Forall_forall in Hsp1, Hsp2.
  destruct Hin as [Hin | [Hin | [Hin | Hin]]].
  - by apply Hsp1 in Hin.
  - inversion Hs; subst; simpl in Hin; intuition congruence.
  - by apply grouped_no_other in Hg.
  - by apply Hsp2 in Hin.
Qed.

(** [int] returns exactly on the texts whose code points read as a
    literal with at most the allowed number of digits, and returns the
    number the literal denotes. *)
Lemma int_literal s v :
  PyInt.int rt s = Some v <->
  exists sg ds,
    literal grouped (List.map (classify rt) s) sg ds /\ within_limit rt ds /\ v = sg * decimal ds.
Proof.
  unfold PyInt.int. split.
  - intros H. apply PyLong_FromString_sound in H as (sg & ds & Hlit & Hl & ->).
    exists sg, ds. split_and!; try done.
    destruct (decide (Exists (fun c => classify rt c = COther) s)) as [Hex | Hex].
    + apply transform_other in Hex. by apply literal_no_other in Hlit.
    + rewrite <- transform_classes; [done|].
      apply List.Forall_forall. intros c Hc Hcl. apply Hex.
      apply List.Exists_exists. eauto.
  - intros (sg & ds & Hlit & Hl & ->).
    apply PyLong_FromString_complete; [|done].
    rewrite transform_classes; [done|].
    apply List.Forall_forall. intros c Hc Hcl.
    apply (literal_no_other _ _ _ Hlit). rewrite <- Hcl. by apply in_map.
Qed.

End WithRuntime.

End LiteralFacts.

(** ** The script, statement by statement *)

Module RunFacts.

Lemma frame_built :
  setitem (from_dict [(lit "day", [1; 2]); (lit "num_passengers", [3; 4])])
          (lit "month") 2 = out_table.
Proof. reflexivity. Qed.

Lemma head_of_table : head 5 out_table = out_table.
Proof. reflexivity. Qed.

Lemma path_built : lit "output_" ++ of_int 2 ++ lit ".parquet" = out_path.
Proof. reflexivity. Qed.

Lemma trace_spoil path w : trace (spoil path w) = trace w.
Proof. unfold spoil. by destruct (decide (path ∈ truncating w)). Qed.

Lemma refused_spoil path w : refused (spoil path w) = refused w.
Proof. unfold spoil. by destruct (decide (path ∈ truncating w)). Qed.

Lemma truncating_spoil path w : truncating (spoil path w) = truncating w.
Proof. unfold spoil. by destruct (decide (path ∈ truncating w)). Qed.

Lemma files_spoil path w :
  files (spoil path w)
  = if decide (path ∈ truncating w) then <[path := Truncated]> (files w)
    else files w.
Proof. unfold spoil. by destruct (decide (path ∈ truncating w)). Qed.

Lemma log_log w evs evs' : log (log w evs) evs' = log w (evs ++ evs').
Proof. unfold log. simpl. by rewrite <- app_assoc. Qed.

Section WithRuntime.
Variable rt : runtime.

(** The whole run, by cases on the argument vector, on the text of the
    first argument and on the file system. *)
Lemma main_eq argv w :
  main rt argv w =
  match argv !! 1%nat with
  | None => (Raise IndexError, log w [print_arguments argv])
  | Some arg =>
      match PyInt.int rt arg with
      | None => (Raise ValueError, log w [print_arguments argv])
      | Some day =>
          let evs := [print_arguments argv; print_day day; print_head; write_table] in
          if decide (out_path ∈ refused w)
          then (Raise OSError, spoil out_path (log w evs))
          else (Ok tt, {| trace := trace w ++ evs;
                          files := <[out_path := Table out_table]> (files w);
                          refused := refused w; truncating := truncating w |})
      end
  end.
Proof.
  unfold main. rewrite frame_built, head_of_table, path_built.
  unfold bind, print, emit, getitem, int, to_parquet, bind, emit. simpl.
  destruct (argv !! 1%nat) as [arg|]; [|done]. simpl.
  destruct (PyInt.int rt arg) as [day|]; [|done]. simpl.
  unfold log. rewrite <- !app_assoc. simpl.
  by destruct (decide (out_path ∈ refused w)).
Qed.

(** A run only adds to the log. *)
Lemma trace_main argv w :
  trace (main rt argv w).2 = trace w ++ issued rt argv w.
Proof.
  unfold issued. rewrite main_eq.
  destruct (argv !! 1%nat) as [arg|]; [|by unfold log; cbn [snd trace]; rewrite drop_app_length].
  destruct (PyInt.int rt arg) as [day|]; [|by unfold log; cbn [snd trace]; rewrite drop_app_length].
  by destruct (decide (out_path ∈ refused w)); cbn [snd]; rewrite ?trace_spoil;
    unfold log; cbn [trace]; rewrite drop_app_length.
Qed.

Lemma issued_eq argv w :
  issued rt argv w =
  match argv !! 1%nat with
  | None => [print_arguments argv]
  | Some arg =>
      match PyInt.int rt arg with
      | None => [print_arguments argv]
      | Some day => [print_arguments argv; print_day day; print_head; write_table]
      end
  end.
Proof.
  unfold issued. rewrite main_eq.
  destruct (argv !! 1%nat) as [arg|]; [|by unfold log; cbn [snd trace]; rewrite drop_app_length].
  destruct (PyInt.int rt arg) as [day|]; [|by unfold log; cbn [snd trace]; rewrite drop_app_length].
  by destruct (decide (out_path ∈ refused w)); cbn [snd]; rewrite ?trace_spoil;
    unfold log; cbn [trace]; rewrite drop_app_length.
Qed.

(** A run never changes what the file system refuses. *)
Lemma refused_main argv w : refused (main rt argv w).2 = refused w.
Proof.
  rewrite main_eq.
  destruct (argv !! 1%nat) as [arg|]; [|done].
  destruct (PyInt.int rt arg) as [day|]; [|done].
  destruct (decide (out_path ∈ refused w)); [|done].
  cbn [snd]. by rewrite refused_spoil.
Qed.

End WithRuntime.

(** Texts that [int] accepts under every runtime. *)
Lemma int_of_3 rt : PyInt.int rt (lit "3") = Some 3.
Proof. reflexivity. Qed.

End RunFacts.

(** ** Runs on concrete inputs *)

Example int_3 : PyInt.int sample_runtime (lit "3") = Some 3.
Proof. reflexivity. Qed.
Example int_ws : PyInt.int sample_runtime (lit "  -0_12 ") = Some (-12).
Proof. reflexivity. Qed.
Example int_abc : PyInt.int sample_runtime (lit "abc") = None.
Proof. reflexivity. Qed.
Example int_35 : PyInt.int sample_runtime (lit "3.5") = None.
Proof. reflexivity. Qed.
Example int_us : PyInt.int sample_runtime (lit "1__0") = None.
Proof. reflexivity. Qed.
Example int_arabic : PyInt.int sample_runtime [1636%N; 1634%N] = Some 42.
Proof. reflexivity. Qed.
Example of_int_neg : of_int (-12) = lit "-12".
Proof. reflexivity. Qed.

Example run_3 :
  run sample_runtime [lit "pipeline.py"; lit "3"] empty_world
  = (0, {| trace := [EPrint [VStr (lit "arguments"); VList [lit "pipeline.py"; lit "3"]];
                     EPrint [VStr (lit "Running pipeline for day 3")];
                     EPrint [VFrame (Frame 2 [(lit "day", [1; 2]); (lit "num_passengers", [3; 4]);
                                              (lit "month", [2; 2])])];
                     EWrite (lit "output_2.parquet")
                            (Frame 2 [(lit "day", [1; 2]); (lit "num_passengers", [3; 4]);
                                      (lit "month", [2; 2])])];
           files := {[ lit "output_2.parquet" :=
                       Table (Frame 2 [(lit "day", [1; 2]); (lit "num_passengers", [3; 4]);
                                       (lit "month", [2; 2])]) ]};
           refused := ∅; truncating := ∅ |}).
Proof. vm_compute. reflexivity. Qed.

(** * The claims of the specification *)

(** C1: invoked with the single argument "3", on a file system that takes
    the write, the process exits with status 0 and writes one file,
    output_2.parquet, which then holds a table with exactly the two rows
    (day=1, num_passengers=3, month=2) and (day=2, num_passengers=4,
    month=2), in that order. *)
Theorem run_with_argument_3 (rt : runtime) (prog : str) (w : world) :
  out_path ∉ refused w ->
  exists w' df,
    run rt [prog; lit "3"] w = (0, w') /\
    List.filter is_write (issued rt [prog; lit "3"] w)
    = [EWrite (lit "output_2.parquet") df] /\
    files w' !! lit "output_2.parquet" = Some (Table df) /\
    labels df = [lit "day"; lit "num_passengers"; lit "month"] /\
    rows df = [[1; 3; 2]; [2; 4; 2]].
Proof.
  intros Hok. unfold run. rewrite RunFacts.issued_eq, RunFacts.main_eq.
  change ([prog; lit "3"] !! 1%nat) with (Some (lit "3")).
  cbv iota beta. rewrite RunFacts.int_of_3. cbv zeta iota beta.
  destruct (decide (out_path ∈ refused w)); [done|].
  eexists _, out_table. split_and!; try reflexivity.
  simpl. apply lookup_insert_eq.
Qed.

Lemma run_with_argument_3_witness :
  (out_path ∉ refused empty_world) /\
  exists w' df,
    run sample_runtime [lit "pipeline.py"; lit "3"] empty_world = (0, w') /\
    List.filter is_write (issued sample_runtime [lit "pipeline.py"; lit "3"] empty_world)
    = [EWrite (lit "output_2.parquet") df] /\
    files w' !! lit "output_2.parquet" = Some (Table df) /\
    labels df = [lit "day"; lit "num_passengers"; lit "month"] /\
    rows df = [[1; 3; 2]; [2; 4; 2]].
Proof.
  split.
  - apply not_elem_of_empty.
  - apply (run_with_argument_3 sample_runtime (lit "pipeline.py") empty_world).
    apply not_elem_of_empty.
Defined.

(** C2: for any two invocations whose first arguments both parse as
    integers, the runs issue the same single write, of the same table to
    the same path output_2.parquet, and leave the same files and the same
    outcome; the month column of the table is the constant 2 in every row,
    whatever the parsed days are. *)
Theorem output_independent_of_day
        (rt : runtime) (argv1 argv2 : list str) (a1 a2 : str) (d1 d2 : Z) (w : world) :
  argv1 !! 1%nat = Some a1 -> argv2 !! 1%nat = Some a2 ->
  PyInt.int rt a1 = Some d1 -> PyInt.int rt a2 = Some d2 ->
  exists df,
    List.filter is_write (issued rt argv1 w) = [EWrite (lit "output_2.parquet") df] /\
    List.filter is_write (issued rt argv2 w) = [EWrite (lit "output_2.parquet") df] /\
    files (main rt argv1 w).2 = files (main rt argv2 w).2 /\
    (main rt argv1 w).1 = (main rt argv2 w).1 /\
    column (lit "month") (columns df) = Some (repeat 2 (nrows df)).
Proof.
  intros Ha1 Ha2 Hd1 Hd2. exists out_table.
  rewrite !RunFacts.issued_eq, !RunFacts.main_eq, Ha1, Ha2, Hd1, Hd2.
  cbv zeta. destruct (decide (out_path ∈ refused w)); cbn [fst snd];
    rewrite ?RunFacts.files_spoil; by split_and!.
Qed.

Lemma output_independent_of_day_witness :
  exists df,
    List.filter is_write (issued sample_runtime [lit "pipeline.py"; lit "3"] empty_world)
    = [EWrite (lit "output_2.parquet") df] /\
    List.filter is_write (issued sample_runtime [lit "pipeline.py"; lit " -0_7"] empty_world)
    = [EWrite (lit "output_2.parquet") df] /\
    files (main sample_runtime [lit "pipeline.py"; lit "3"] empty_world).2
    = files (main sample_runtime [lit "pipeline.py"; lit " -0_7"] empty_world).2 /\
    (main sample_runtime [lit "pipeline.py"; lit "3"] empty_world).1
    = (main sample_runtime [lit "pipeline.py"; lit " -0_7"] empty_world).1 /\
    column (lit "month") (columns df) = Some (repeat 2 (nrows df)).
Proof.
  apply (output_independent_of_day sample_runtime
           [lit "pipeline.py"; lit "3"] [lit "pipeline.py"; lit " -0_7"]
           (lit "3") (lit " -0_7") 3 (-7) empty_world); reflexivity.
Defined.

(** C3: when the first argument is not a valid literal for [int] (white
    space, an optional sign, digits with single underscores between them,
    white space, and no more digits than the interpreter allows), the run
    ends with ValueError, the uncaught parse error: the exit status is 1,
    only the argument list has been printed, no write is issued and the
    files are as before. *)
Theorem invalid_argument_fails
        (rt : runtime) (argv : list str) (arg : str) (w : world) :
  argv !! 1%nat = Some arg ->
  ~ (exists sg ds,
       Literal.literal Literal.grouped (List.map (Literal.classify rt) arg) sg ds /\
       Literal.within_limit rt ds) ->
  main rt argv w = (Raise ValueError, log w [print_arguments argv]) /\
  run rt argv w = (1, log w [print_arguments argv]) /\
  List.filter is_write (issued rt argv w) = [] /\
  files (main rt argv w).2 = files w.
Proof.
  intros Harg Hbad.
  assert (Hnone : PyInt.int rt arg = None).
  { destruct (PyInt.int rt arg) as [v|] eqn:Hv; [|done].
    apply LiteralFacts.int_literal in Hv as (sg & ds & Hlit & Hl & _).
    destruct Hbad; eauto. }
  unfold run. rewrite RunFacts.issued_eq, RunFacts.main_eq, Harg, Hnone. done.
Qed.

Lemma invalid_argument_fails_witness :
  main sample_runtime [lit "pipeline.py"; lit "abc"] empty_world
  = (Raise ValueError, log empty_world [print_arguments [lit "pipeline.py"; lit "abc"]]) /\
  run sample_runtime [lit "pipeline.py"; lit "abc"] empty_world
  = (1, log empty_world [print_arguments [lit "pipeline.py"; lit "abc"]]) /\
  List.filter is_write (issued sample_runtime [lit "pipeline.py"; lit "abc"] empty_world) = [] /\
  files (main sample_runtime [lit "pipeline.py"; lit "abc"] empty_world).2 = files empty_world.
Proof.
  apply (invalid_argument_fails sample_runtime [lit "pipeline.py"; lit "abc"] (lit "abc")).
  - reflexivity.
  - intros (sg & ds & Hlit & _). apply LiteralFacts.literal_no_other in Hlit.
    apply Hlit. left. reflexivity.
Defined.

(** C4: invoked without command-line arguments, the run ends with
    IndexError, the missing-argument error: the exit status is 1, only the
    argument list has been printed, no write is issued and the files are
    as before. *)
Theorem missing_argument_fails (rt : runtime) (prog : str) (w : world) :
  main rt [prog] w = (Raise IndexError, log w [print_arguments [prog]]) /\
  run rt [prog] w = (1, log w [print_arguments [prog]]) /\
  List.filter is_write (issued rt [prog] w) = [] /\
  files (main rt [prog] w).2 = files w.
Proof.
  unfold run. rewrite RunFacts.issued_eq, RunFacts.main_eq. done.
Qed.

(** C5: on every successful run exactly one write is issued, its path is
    output_2.parquet, the text output_ followed by the decimal form of the
    constant 2 and .parquet, and the files change at that path only; the
    argument vector has no part in it. *)
Theorem output_path_constant (rt : runtime) (argv : list str) (w w' : world) :
  main rt argv w = (Ok tt, w') ->
  exists df,
    List.filter is_write (issued rt argv w) = [EWrite (lit "output_2.parquet") df] /\
    files w' = <[lit "output_2.parquet" := Table df]> (files w) /\
    lit "output_2.parquet" = lit "output_" ++ of_int 2 ++ lit ".parquet".
Proof.
  rewrite RunFacts.issued_eq, RunFacts.main_eq.
  destruct (argv !! 1%nat) as [arg|]; [|done].
  destruct (PyInt.int rt arg) as [day|]; [|done]. cbv zeta.
  destruct (decide (out_path ∈ refused w)); [done|].
  intros [= <-]. by exists out_table.
Qed.

Lemma output_path_constant_witness :
  exists df,
    List.filter is_write (issued sample_runtime [lit "pipeline.py"; lit "3"] empty_world)
    = [EWrite (lit "output_2.parquet") df] /\
    files (main sample_runtime [lit "pipeline.py"; lit "3"] empty_world).2
    = <[lit "output_2.parquet" := Table df]> (files empty_world) /\
    lit "output_2.parquet" = lit "output_" ++ of_int 2 ++ lit ".parquet".
Proof.
  apply (output_path_constant sample_runtime [lit "pipeline.py"; lit "3"] empty_world).
  vm_compute. reflexivity.
Defined.

(** C6: a table that a run writes has exactly the three columns day,
    num_passengers and month, in that order, all of integer cells, and
    exactly two rows. *)
Theorem written_table_shape
        (rt : runtime) (argv : list str) (w : world) (path : str) (df : DataFrame) :
  In (EWrite path df) (issued rt argv w) ->
  labels df = [lit "day"; lit "num_passengers"; lit "month"] /\
  nrows df = 2%nat /\
  Forall (fun col : str * list Z => length col.2 = 2%nat) (columns df) /\
  length (rows df) = 2%nat.
Proof.
  rewrite RunFacts.issued_eq.
  assert (Hargs : In (EWrite path df) [print_arguments argv] -> False).
  { intros [H | []]. discriminate. }
  destruct (argv !! 1%nat) as [arg|]; [|by intros ?%Hargs].
  destruct (PyInt.int rt arg) as [day|]; [|by intros ?%Hargs].
  intros [H | [H | [H | [H | []]]]]; try discriminate.
  injection H as <- <-. split_and!; try reflexivity.
  repeat constructor.
Qed.

Lemma written_table_shape_witness :
  labels out_table = [lit "day"; lit "num_passengers"; lit "month"] /\
  nrows out_table = 2%nat /\
  Forall (fun col : str * list Z => length col.2 = 2%nat) (columns out_table) /\
  length (rows out_table) = 2%nat.
Proof.
  apply (written_table_shape sample_runtime [lit "pipeline.py"; lit "3"] empty_world
                             out_path out_table).
  vm_compute. right. right. right. left. reflexivity.
Defined.

(** C7: when the first argument parses and the file system takes the
    write, running the program again with the same arguments overwrites
    output_2.parquet with an identical table: both runs succeed, both
    issue the same write, the file holds the same table after the first
    run and after the second, and the second run leaves every file as the
    first run left it. *)
Theorem rerun_idempotent
        (rt : runtime) (argv : list str) (arg : str) (day : Z) (w : world) :
  argv !! 1%nat = Some arg -> PyInt.int rt arg = Some day ->
  lit "output_2.parquet" ∉ refused w ->
  let w1 := (main rt argv w).2 in
  let w2 := (main rt argv w1).2 in
  (main rt argv w).1 = Ok tt /\
  (main rt argv w1).1 = Ok tt /\
  exists df,
    List.filter is_write (issued rt argv w) = [EWrite (lit "output_2.parquet") df] /\
    List.filter is_write (issued rt argv w1) = [EWrite (lit "output_2.parquet") df] /\
    files w1 !! lit "output_2.parquet" = Some (Table df) /\
    files w2 !! lit "output_2.parquet" = Some (Table df) /\
    files w2 = files w1.
Proof.
  intros Harg Hday Hok w1 w2. subst w2.
  assert (Href : refused w1 = refused w) by apply RunFacts.refused_main.
  rewrite !RunFacts.issued_eq. rewrite (RunFacts.main_eq rt argv w1), Href.
  subst w1. rewrite (RunFacts.main_eq rt argv w), Harg, Hday. cbv zeta.
  destruct (decide (out_path ∈ refused w)) as [Hin | _]; [destruct (Hok Hin)|].
  cbn [fst snd files]. split_and!; try done.
  exists out_table. split_and!; try done.
  - apply lookup_insert_eq.
  - by rewrite insert_insert_eq, lookup_insert_eq.
  - apply insert_insert_eq.
Qed.

Lemma rerun_idempotent_witness :
  let argv := [lit "pipeline.py"; lit "3"] in
  let w1 := (main sample_runtime argv empty_world).2 in
  let w2 := (main sample_runtime argv w1).2 in
  (main sample_runtime argv empty_world).1 = Ok tt /\
  (main sample_runtime argv w1).1 = Ok tt /\
  exists df,
    List.filter is_write (issued sample_runtime argv empty_world)
    = [EWrite (lit "output_2.parquet") df] /\
    List.filter is_write (issued sample_runtime argv w1)
    = [EWrite (lit "output_2.parquet") df] /\
    files w1 !! lit "output_2.parquet" = Some (Table df) /\
    files w2 !! lit "output_2.parquet" = Some (Table df) /\
    files w2 = files w1.
Proof.
  intros argv.
  apply (rerun_idempotent sample_runtime argv (lit "3") 3 empty_world).
  - reflexivity.
  - reflexivity.
  - apply not_elem_of_empty.
Defined.

(** C8: the operations of a run come in the order of the script.  The
    argument list is printed first, before the first argument is looked at:
    when the argument is missing or does not parse, that print is the only
    operation of the run.  When the argument parses, the day message, the
    head of the table and the write follow in that order: three prints,
    then one write, which is the last operation. *)
Theorem effects_in_order (rt : runtime) (argv : list str) (w : world) :
  trace (main rt argv w).2 = trace w ++ issued rt argv w /\
  match argv !! 1%nat with
  | None => issued rt argv w = [print_arguments argv]
  | Some arg =>
      match PyInt.int rt arg with
      | None => issued rt argv w = [print_arguments argv]
      | Some day =>
          issued rt argv w
          = [print_arguments argv; print_day day; EPrint [VFrame (head 5 out_table)];
             EWrite (lit "output_2.parquet") out_table] /\
          length (List.filter is_print (issued rt argv w)) = 3%nat /\
          length (List.filter is_write (issued rt argv w)) = 1%nat /\
          last (issued rt argv w) = Some (EWrite (lit "output_2.parquet") out_table)
      end
  end.
Proof.
  split; [apply RunFacts.trace_main|]. rewrite RunFacts.issued_eq.
  destruct (argv !! 1%nat) as [arg|]; [|done].
  by destruct (PyInt.int rt arg) as [day|].
Qed.

(** C9: arguments after the first change nothing but the printed argument
    list: the run with more arguments ends the same way, leaves the same
    files and issues the same operations after the first print as the run
    with the first argument alone. *)
Theorem only_first_argument_used
        (rt : runtime) (prog arg : str) (rest : list str) (w : world) :
  (main rt (prog :: arg :: rest) w).1 = (main rt [prog; arg] w).1 /\
  files (main rt (prog :: arg :: rest) w).2 = files (main rt [prog; arg] w).2 /\
  exists tl,
    issued rt (prog :: arg :: rest) w = print_arguments (prog :: arg :: rest) :: tl /\
    issued rt [prog; arg] w = print_arguments [prog; arg] :: tl.
Proof.
  rewrite !RunFacts.issued_eq, !RunFacts.main_eq.
  change ((prog :: arg :: rest) !! 1%nat) with (Some arg).
  change ([prog; arg] !! 1%nat) with (Some arg). cbv iota beta.
  destruct (PyInt.int rt arg) as [day|]; cbv zeta.
  - destruct (decide (out_path ∈ refused w)); cbn [fst snd];
      rewrite ?RunFacts.files_spoil; split_and!; eauto.
  - split_and!; eauto.
Qed.

(** C10, as stated, fails: the text 0_7 has an underscore between its
    digits, so it is not white space, an optional sign, decimal digits and
    white space (nor is 0_7 an integer literal of Python source, which
    allows no digit after a leading zero); yet [int] accepts it, as 7, and
    the process exits with status 0. *)
Lemma underscored_digits_accepted :
  PyInt.int sample_runtime (lit "0_7") = Some 7 /\
  (run sample_runtime [lit "pipeline.py"; lit "0_7"] empty_world).1 = 0 /\
  ~ (exists sg ds, Literal.literal Literal.plain
                     (List.map (Literal.classify sample_runtime) (lit "0_7")) sg ds).
Proof.
  split_and!; [reflexivity | reflexivity |].
  intros (sg & ds & Hlit). apply LiteralFacts.literal_plain_no_underscore in Hlit.
  apply Hlit. right. left. reflexivity.
Qed.

(** C10, amended: [int] accepts exactly the texts that read as white
    space, an optional sign, decimal digits with at most one underscore
    between two digits, and white space, with no more digits than the
    interpreter's limit allows, and yields the number the digits denote
    with that sign.  Every such text without underscores is among them.
    The argument 3.5 is not: the run ends with ValueError after the first
    print. *)
Theorem int_accepts_exactly (rt : runtime) :
  (forall s v,
     PyInt.int rt s = Some v <->
     exists sg ds,
       Literal.literal Literal.grouped (List.map (Literal.classify rt) s) sg ds /\
       Literal.within_limit rt ds /\ v = sg * Literal.decimal ds) /\
  (forall s sg ds,
     Literal.literal Literal.plain (List.map (Literal.classify rt) s) sg ds ->
     Literal.within_limit rt ds ->
     PyInt.int rt s = Some (sg * Literal.decimal ds)) /\
  (forall prog w,
     main rt [prog; lit "3.5"] w
     = (Raise ValueError, log w [print_arguments [prog; lit "3.5"]])).
Proof.
  split_and!.
  - apply LiteralFacts.int_literal.
  - intros s sg ds Hlit Hl. apply LiteralFacts.int_literal.
    exists sg, ds. auto using LiteralFacts.literal_plain_grouped.
  - intros prog w. by rewrite RunFacts.main_eq.
Qed.

(** With the default limit of 4300 digits, a text of 4301 digits is
    refused, and one of 4300 digits is accepted. *)
Example int_digit_limit :
  PyInt.int sample_runtime (repeat 49%N 4301) = None /\
  is_Some (PyInt.int sample_runtime (repeat 49%N 4300)).
Proof. split; vm_compute; eauto. Qed.

(** * Further properties of the script *)

(** X1: the process exits with status 0 exactly when there is a first
    command-line argument, [int] accepts it, and the file system takes the
    write to output_2.parquet. *)
Theorem exit_status_zero_iff (rt : runtime) (argv : list str) (w : world) :
  (run rt argv w).1 = 0 <->
  exists arg day,
    argv !! 1%nat = Some arg /\ PyInt.int rt arg = Some day /\
    lit "output_2.parquet" ∉ refused w.
Proof.
  unfold run. rewrite RunFacts.main_eq.
  destruct (argv !! 1%nat) as [arg|].
  - destruct (PyInt.int rt arg) as [day|] eqn:Hday; cbv zeta.
    + destruct (decide (out_path ∈ refused w)) as [Hin | Hnin]; simpl.
      * split; [done|]. intros (? & ? & _ & _ & Hn). destruct (Hn Hin).
      * split; [|done]. intros _. exists arg, day. split_and!; [done | done | exact Hnin].
    + simpl. split; [done|]. intros (? & ? & [= <-] & ? & _). congruence.
  - simpl. split; [done|]. intros (? & ? & ? & _). done.
Qed.

(** X2: which exception ends a run.  IndexError: the argument vector has
    at most one entry (the script's name, or nothing at all).  ValueError:
    there is a first argument and [int] rejects it.  OSError: the argument
    parses and the file system refuses the write. *)
Theorem exception_by_cases (rt : runtime) (argv : list str) (w : world) :
  ((main rt argv w).1 = Raise IndexError <-> (length argv <= 1)%nat) /\
  ((main rt argv w).1 = Raise ValueError <->
   exists arg, argv !! 1%nat = Some arg /\ PyInt.int rt arg = None) /\
  ((main rt argv w).1 = Raise OSError <->
   exists arg day,
     argv !! 1%nat = Some arg /\ PyInt.int rt arg = Some day /\
     lit "output_2.parquet" ∈ refused w).
Proof.
  rewrite RunFacts.main_eq.
  destruct (argv !! 1%nat) as [arg|] eqn:Harg.
  - assert (Hlen : (1 < length argv)%nat) by (by eapply lookup_lt_Some).
    destruct (PyInt.int rt arg) as [day|] eqn:Hday; cbv zeta.
    + destruct (decide (out_path ∈ refused w)) as [Hin | Hnin]; simpl.
      * split_and!.
        -- split; [discriminate | lia].
        -- split; [discriminate | intros (? & [= <-] & ?); congruence].
        -- split; [intros _; exists arg, day; by split_and! | done].
      * split_and!.
        -- split; [discriminate | lia].
        -- split; [discriminate | intros (? & [= <-] & ?); congruence].
        -- split; [discriminate | intros (? & ? & _ & _ & Hin); destruct (Hnin Hin)].
    + simpl. split_and!.
      * split; [discriminate | lia].
      * split; [intros _; by exists arg | done].
      * split; [discriminate | intros (? & ? & [= <-] & ? & _); congruence].
  - apply lookup_ge_None in Harg. simpl. split_and!.
    + split; [intros _; lia | done].
    + split; [discriminate | intros (? & [=] & _)].
    + split; [discriminate | intros (? & ? & [=] & _)].
Qed.



(** X4: whatever the arguments and however the run ends, every file
    other than output_2.parquet holds after the run what it held
    before. *)
Theorem other_files_untouched
        (rt : runtime) (argv : list str) (w : world) (path : str) :
  path <> lit "output_2.parquet" ->
  files (main rt argv w).2 !! path = files w !! path.
Proof.
  intros Hne. rewrite RunFacts.main_eq.
  destruct (argv !! 1%nat) as [arg|]; [|done].
  destruct (PyInt.int rt arg) as [day|]; [|done]. cbv zeta.
  destruct (decide (out_path ∈ refused w)); cbn [snd files].
  - rewrite RunFacts.files_spoil. cbn [truncating log files].
    destruct (decide (out_path ∈ truncating w)); [|done].
    by apply lookup_insert_ne.
  - by apply lookup_insert_ne.
Qed.

Lemma other_files_untouched_witness :
  let w := {| trace := [];
              files := {[ lit "notes.txt" := Truncated ]};
              refused := {[ lit "output_2.parquet" ]};
              truncating := {[ lit "output_2.parquet" ]} |} in
  files (main sample_runtime [lit "pipeline.py"; lit "3"] w).2 !! lit "notes.txt"
  = files w !! lit "notes.txt".
Proof.
  intros w.
  apply (other_files_untouched sample_runtime [lit "pipeline.py"; lit "3"] w
                               (lit "notes.txt")).
  discriminate.
Defined.

(** * Further properties: the frame operations *)

Module FrameFacts.

Lemma column_set_column k cells cols :
  column k (set_column k cells cols) = Some cells.
Proof.
  induction cols as [|[k' old] cols IH]; simpl.
  - by rewrite decide_True.
  - destruct (decide (k' = k)) as [-> | Hne]; simpl.
    + by rewrite decide_True.
    + by rewrite decide_False.
Qed.

Lemma column_set_column_ne k k' cells cols :
  k' <> k -> column k' (set_column k cells cols) = column k' cols.
Proof.
  intros Hne. induction cols as [|[k'' old] cols IH]; simpl.
  - rewrite decide_False; [done | congruence].
  - destruct (decide (k'' = k)) as [-> | Hne']; simpl.
    + rewrite !decide_False; [done | congruence | congruence].
    + by rewrite IH.
Qed.

Lemma labels_set_column k cells cols :
  List.map fst (set_column k cells cols)
  = if decide (k ∈ List.map fst cols) then List.map fst cols
    else List.map fst cols ++ [k].
Proof.
  induction cols as [|[k' old] cols IH]; cbn [set_column List.map fst].
  - destruct (decide (k ∈ [])) as [Hin | _]; [by apply elem_of_nil in Hin | done].
  - destruct (decide (k' = k)) as [-> | Hne]; cbn [List.map fst].
    + destruct (decide (k ∈ k :: List.map fst cols)) as [_ | Hnin]; [done|].
      destruct Hnin. apply elem_of_cons. by left.
    + rewrite IH. destruct (decide (k ∈ List.map fst cols)) as [Hin | Hnin].
      * destruct (decide (k ∈ k' :: List.map fst cols)) as [_ | Hnin]; [done|].
        destruct Hnin. apply elem_of_cons. by right.
      * destruct (decide (k ∈ k' :: List.map fst cols)) as [Hin | _]; [|done].
        apply elem_of_cons in Hin as [? | ?]; [congruence | done].
Qed.

Lemma set_column_fresh k cells cols :
  k ∉ List.map fst cols -> set_column k cells cols = cols ++ [(k, cells)].
Proof.
  induction cols as [|[k' old] cols IH]; simpl; [done|].
  intros Hnin. apply not_elem_of_cons in Hnin as [Hne Hnin].
  rewrite decide_False by congruence. by rewrite IH.
Qed.

Lemma set_column_lengths (n : nat) k cells cols :
  length cells = n ->
  Forall (fun col : str * list Z => length col.2 = n) cols ->
  Forall (fun col : str * list Z => length col.2 = n) (set_column k cells cols).
Proof.
  intros Hc. induction 1 as [|[k' old] cols Hold Hcols IH]; simpl.
  - by repeat constructor.
  - destruct (decide (k' = k)); by constructor.
Qed.

End FrameFacts.

(** X5: after [df[k] = v] the column [k] holds [v] in every row, every
    other column holds what it held, and the number of rows is the same. *)
Theorem setitem_column (df : DataFrame) (k : str) (v : Z) :
  column k (columns (setitem df k v)) = Some (repeat v (nrows df)) /\
  (forall k', k' <> k ->
              column k' (columns (setitem df k v)) = column k' (columns df)) /\
  nrows (setitem df k v) = nrows df.
Proof.
  split_and!; [apply FrameFacts.column_set_column | | done].
  intros k' Hne. by apply FrameFacts.column_set_column_ne.
Qed.

(** X6: [df[k] = v] keeps the labels and their order when [k] is one of
    them (the column is replaced where it stands), and adds [k] after the
    last label otherwise. *)
Theorem setitem_labels (df : DataFrame) (k : str) (v : Z) :
  labels (setitem df k v)
  = if decide (k ∈ labels df) then labels df else labels df ++ [k].
Proof. apply FrameFacts.labels_set_column. Qed.

(** X7: [df[k] = v] and [df.head(n)] keep a frame well formed (every
    column has one cell for each row), and [df[k] = v] keeps the labels
    free of duplicates. *)
Theorem frame_invariants (df : DataFrame) (k : str) (v : Z) (n : nat) :
  well_formed df -> NoDup (labels df) ->
  well_formed (setitem df k v) /\ NoDup (labels (setitem df k v)) /\
  well_formed (head n df) /\ labels (head n df) = labels df.
Proof.
  intros Hwf Hnd. split_and!.
  - apply FrameFacts.set_column_lengths; [apply repeat_length | done].
  - unfold labels, setitem. simpl. rewrite FrameFacts.labels_set_column.
    destruct (decide (k ∈ List.map fst (columns df))) as [Hin | Hnin]; [done|].
    apply NoDup_app. split_and!; [done | | apply NoDup_singleton].
    intros x Hx ->%list_elem_of_singleton. done.
  - unfold well_formed, head in *. simpl.
    apply List.Forall_forall. intros [k' cells] Hin.
    apply in_map_iff in Hin as ([k'' cells'] & [= <- <-] & Hin).
    rewrite List.Forall_forall in Hwf. specialize (Hwf _ Hin). simpl in *.
    rewrite length_take. lia.
  - unfold labels, head. simpl. rewrite List.map_map.
    apply map_ext. by intros [? ?].
Qed.

Lemma frame_invariants_witness :
  let df := from_dict [(lit "day", [1; 2]); (lit "num_passengers", [3; 4])] in
  well_formed (setitem df (lit "month") 2) /\
  NoDup (labels (setitem df (lit "month") 2)) /\
  well_formed (head 5 df) /\ labels (head 5 df) = labels df.
Proof.
  intros df. apply (frame_invariants df (lit "month") 2 5).
  - repeat constructor.
  - apply (bool_decide_unpack _). vm_compute. exact I.
Defined.

(** X8: on a well-formed frame with at most [n] rows, [df.head(n)] is the
    frame itself. *)
Theorem head_of_short_frame (df : DataFrame) (n : nat) :
  well_formed df -> (nrows df <= n)%nat -> head n df = df.
Proof.
  intros Hwf Hn. destruct df as [m cols]. unfold head, well_formed in *.
  simpl in *. f_equal; [lia|].
  induction Hwf as [|[k cells] cols Hc _ IH]; [done|].
  simpl in *. rewrite IH. by rewrite firstn_all2 by lia.
Qed.

Lemma head_of_short_frame_witness : head 5 out_table = out_table.
Proof.
  apply (head_of_short_frame out_table 5).
  - repeat constructor.
  - simpl. lia.
Defined.

(** X9: when [k] is not yet a label of the frame, [df[k] = v]
    puts the cell [v] at the end of every row and changes nothing else in
    the rows. *)
Theorem setitem_rows (df : DataFrame) (k : str) (v : Z) :
  k ∉ labels df ->
  rows (setitem df k v) = List.map (fun r => r ++ [v]) (rows df).
Proof.
  intros Hk. unfold rows. rewrite List.map_map. simpl.
  apply map_ext_in. intros i Hi. apply in_seq in Hi.
  unfold row, setitem. simpl.
  rewrite FrameFacts.set_column_fresh by done.
  rewrite List.map_app. simpl. do 2 f_equal.
  apply nth_repeat_lt. lia.
Qed.

Lemma setitem_rows_witness :
  let df := from_dict [(lit "day", [1; 2]); (lit "num_passengers", [3; 4])] in
  rows (setitem df (lit "month") 2) = List.map (fun r => r ++ [2]) (rows df).
Proof.
  intros df. apply (setitem_rows df (lit "month") 2).
  apply (bool_decide_unpack _). vm_compute. exact I.
Defined.

(** * Further properties: [int] *)

Module IntFacts.
Import PyInt Literal.

Lemma grouped_last b ds : grouped b ds -> exists b' d, b = b' ++ [CDigit d].
Proof.
  induction 1 as [d | d cs ds _ (b' & d' & ->) | d cs ds _ (b' & d' & ->)].
  - by exists [], d.
  - by exists (CDigit d :: b'), d'.
  - by exists (CDigit d :: CUnderscore :: b'), d'.
Qed.

Lemma grouped_length b ds : grouped b ds -> (length ds <= length b)%nat.
Proof. induction 1; simpl; lia. Qed.

Lemma literal_digit cs sg ds :
  literal grouped cs sg ds -> exists d, In (CDigit d) cs.
Proof.
  intros (sp1 & s & b & sp2 & -> & _ & _ & Hg & _).
  destruct (LiteralFacts.grouped_head _ _ Hg) as (d & b' & ->).
  exists d. rewrite !in_app_iff. right. right. left. by left.
Qed.

Lemma literal_length cs sg ds :
  literal grouped cs sg ds -> (length ds <= length cs)%nat.
Proof.
  intros (sp1 & s & b & sp2 & -> & _ & _ & Hg & _).
  apply grouped_length in Hg. rewrite !length_app. lia.
Qed.

Lemma too_many_digits_le rt n m :
  (n <= m)%N -> too_many_digits rt m = false -> too_many_digits rt n = false.
Proof.
  unfold too_many_digits. intros Hle.
  rewrite !andb_false_iff, !N.ltb_ge. lia.
Qed.

Lemma too_many_digits_small rt n : (n <= 640)%N -> too_many_digits rt n = false.
Proof.
  unfold too_many_digits. intros Hle.
  rewrite !andb_false_iff, !N.ltb_ge. lia.
Qed.

(** When two texts have the same literals within the limits of their
    interpreters, [int] gives the same on both. *)
Lemma int_ext rt rt' s s' :
  (forall sg ds,
     literal grouped (List.map (classify rt) s) sg ds /\ within_limit rt ds <->
     literal grouped (List.map (classify rt') s') sg ds /\ within_limit rt' ds) ->
  PyInt.int rt s = PyInt.int rt' s'.
Proof.
  intros Hiff.
  destruct (PyInt.int rt s) as [v|] eqn:Hs.
  - apply LiteralFacts.int_literal in Hs as (sg & ds & Hlit & Hl & ->).
    symmetry. apply LiteralFacts.int_literal. exists sg, ds.
    destruct (proj1 (Hiff sg ds)); auto.
  - destruct (PyInt.int rt' s') as [v|] eqn:Hs'; [|done].
    apply LiteralFacts.int_literal in Hs' as (sg & ds & Hlit & Hl & ->).
    rewrite <- Hs. apply LiteralFacts.int_literal. exists sg, ds.
    destruct (proj2 (Hiff sg ds)); auto.
Qed.

End IntFacts.

(** X10: [int] rejects the empty text and every text of white space only:
    an empty or blank first argument ends the run with ValueError. *)
Theorem blank_argument_rejected (rt : runtime) (s : str) :
  Forall (fun c => Literal.classify rt c = Literal.CSpace) s ->
  PyInt.int rt s = None /\
  forall prog w, (main rt [prog; s] w).1 = Raise ValueError.
Proof.
  intros Hsp.
  assert (Hnone : PyInt.int rt s = None).
  { destruct (PyInt.int rt s) as [v|] eqn:Hv; [|done].
    apply LiteralFacts.int_literal in Hv as (sg & ds & Hlit & _).
    apply IntFacts.literal_digit in Hlit as (d & Hd).
    apply in_map_iff in Hd as (c & Hc & Hin).
    rewrite List.Forall_forall in Hsp. apply Hsp in Hin. congruence. }
  split; [done|]. intros prog w. rewrite RunFacts.main_eq.
  change ([prog; s] !! 1%nat) with (Some s). cbv iota beta. by rewrite Hnone.
Qed.

Lemma blank_argument_rejected_witness :
  PyInt.int sample_runtime [] = None /\
  forall prog w, (main sample_runtime [prog; []] w).1 = Raise ValueError.
Proof. apply (blank_argument_rejected sample_runtime []). constructor. Defined.

(** X11: [int] rejects every text in which some code point is neither
    white space, a sign, an underscore nor a decimal digit: a decimal
    point, an exponent, a letter or a base prefix makes the argument
    invalid. *)
Theorem foreign_character_rejected (rt : runtime) (s : str) (c : N) :
  In c s -> Literal.classify rt c = Literal.COther -> PyInt.int rt s = None.
Proof.
  intros Hin Hc. destruct (PyInt.int rt s) as [v|] eqn:Hv; [|done].
  apply LiteralFacts.int_literal in Hv as (sg & ds & Hlit & _).
  apply LiteralFacts.literal_no_other in Hlit. destruct Hlit.
  rewrite <- Hc. by apply in_map.
Qed.

Lemma foreign_character_rejected_witness :
  PyInt.int sample_runtime (lit "1e3") = None.
Proof.
  apply (foreign_character_rejected sample_runtime (lit "1e3") 101%N).
  - right. left. reflexivity.
  - reflexivity.
Defined.

(** X12: the digit limit never applies to a text of at most 640 code
    points: on such a text [int] gives the same result whatever the limit
    of the interpreter is, none included. *)
Theorem limit_irrelevant_for_short_text (rt : runtime) (limit : N) (s : str) :
  (length s <= 640)%nat ->
  PyInt.int (Runtime (unicode_isspace rt) (unicode_todecimal rt) limit) s
  = PyInt.int rt s.
Proof.
  intros Hlen. apply IntFacts.int_ext. intros sg ds.
  change (List.map (Literal.classify
            (Runtime (unicode_isspace rt) (unicode_todecimal rt) limit)) s)
    with (List.map (Literal.classify rt) s).
  assert (Hsmall : forall rt', Literal.literal Literal.grouped
                     (List.map (Literal.classify rt) s) sg ds ->
                   Literal.within_limit rt' ds).
  { intros rt' Hlit. apply IntFacts.literal_length in Hlit.
    rewrite length_map in Hlit.
    apply IntFacts.too_many_digits_small. lia. }
  split; intros [Hlit _]; auto.
Qed.

Lemma limit_irrelevant_for_short_text_witness :
  PyInt.int (Runtime (unicode_isspace sample_runtime)
                     (unicode_todecimal sample_runtime) 0) (lit "-12")
  = PyInt.int sample_runtime (lit "-12").
Proof.
  apply (limit_irrelevant_for_short_text sample_runtime 0 (lit "-12")).
  simpl. lia.
Defined.

Module SpaceFacts.
Import PyInt Literal.

Lemma literal_strip_lead cs sg ds :
  literal grouped (CSpace :: cs) sg ds -> literal grouped cs sg ds.
Proof.
  intros (sp1 & s & b & sp2 & Hcs & Hsp1 & Hs & Hg & Hsp2).
  destruct sp1 as [|x sp1].
  - destruct (LiteralFacts.grouped_head _ _ Hg) as (d & b' & ->).
    inversion Hs; subst; discriminate.
  - injection Hcs as _ ->. apply Forall_cons in Hsp1 as [_ Hsp1].
    by exists sp1, s, b, sp2.
Qed.

Lemma literal_strip_trail cs sg ds :
  literal grouped (cs ++ [CSpace]) sg ds -> literal grouped cs sg ds.
Proof.
  intros (sp1 & s & b & sp2 & Hcs & Hsp1 & Hs & Hg & Hsp2).
  destruct sp2 as [|x sp2 _] using rev_ind.
  - destruct (IntFacts.grouped_last _ _ Hg) as (b' & d & ->).
    rewrite app_nil_r, !app_assoc in Hcs.
    apply app_inj_tail in Hcs as [_ [=]].
  - rewrite !app_assoc in Hcs. apply app_inj_tail in Hcs as [-> _].
    apply Forall_app in Hsp2 as [Hsp2 _].
    exists sp1, s, b, sp2. by rewrite <- !app_assoc.
Qed.

Lemma literal_add_lead cs sg ds :
  literal grouped cs sg ds -> literal grouped (CSpace :: cs) sg ds.
Proof.
  intros (sp1 & s & b & sp2 & -> & Hsp1 & Hs & Hg & Hsp2).
  exists (CSpace :: sp1), s, b, sp2. split_and!; try done. by constructor.
Qed.

Lemma literal_add_trail cs sg ds :
  literal grouped cs sg ds -> literal grouped (cs ++ [CSpace]) sg ds.
Proof.
  intros (sp1 & s & b & sp2 & -> & Hsp1 & Hs & Hg & Hsp2).
  exists sp1, s, b, (sp2 ++ [CSpace]). split_and!; try done.
  - by rewrite <- !app_assoc.
  - apply Forall_app. split; [done | by repeat constructor].
Qed.

Lemma literal_spaces sp sp' cs sg ds :
  Forall (eq CSpace) sp -> Forall (eq CSpace) sp' ->
  literal grouped (sp ++ cs ++ sp') sg ds <-> literal grouped cs sg ds.
Proof.
  intros Hsp Hsp'. induction Hsp as [|x sp <- _ IH]; simpl.
  - revert Hsp'. induction sp' as [|x sp' IH] using rev_ind; intros Hsp'.
    + by rewrite app_nil_r.
    + apply Forall_app in Hsp' as [Hsp' Hx]. apply Forall_cons in Hx as [<- _].
      rewrite app_assoc. rewrite <- (IH Hsp').
      split; [apply literal_strip_trail | apply literal_add_trail].
  - rewrite <- IH. split; [apply literal_strip_lead | apply literal_add_lead].
Qed.

End SpaceFacts.

(** X13: white space before and after the text does not change what
    [int] returns, a number or the rejection. *)
Theorem surrounding_space_ignored (rt : runtime) (ws1 s ws2 : str) :
  Forall (fun c => Literal.classify rt c = Literal.CSpace) ws1 ->
  Forall (fun c => Literal.classify rt c = Literal.CSpace) ws2 ->
  PyInt.int rt (ws1 ++ s ++ ws2) = PyInt.int rt s.
Proof.
  intros H1 H2. apply IntFacts.int_ext. intros sg ds.
  rewrite !List.map_app, SpaceFacts.literal_spaces; [done | |].
  - apply Forall_map. eapply Forall_impl; [exact H1|]. by intros c ->.
  - apply Forall_map. eapply Forall_impl; [exact H2|]. by intros c ->.
Qed.

Lemma surrounding_space_ignored_witness :
  PyInt.int sample_runtime ([32; 160]%N ++ lit "-7" ++ [9; 12288; 10]%N)
  = PyInt.int sample_runtime (lit "-7").
Proof.
  apply (surrounding_space_ignored sample_runtime [32; 160]%N (lit "-7") [9; 12288; 10]%N);
    repeat constructor.
Defined.

Module SignFacts.
Import PyInt Literal.

Lemma transform_head rt c s d :
  classify rt c = CDigit d ->
  exists c' t, transform rt (c :: s) = c' :: t /\ ascii_class c' = CDigit d.
Proof.
  unfold classify. simpl. destruct (c <? 127)%N; [eauto|].
  destruct (unicode_isspace rt c); [done|].
  destruct (unicode_todecimal rt c) as [d'|]; [|done].
  intros [= <-]. eexists _, _. split; [done|].
  apply LiteralFacts.class_of_decimal.
Qed.

Lemma PyLong_digit_head rt c t d :
  ascii_class c = CDigit d -> PyLong_FromString rt (c :: t) = after_sign rt 1 (c :: t).
Proof.
  intros Hc. unfold PyLong_FromString.
  rewrite LiteralFacts.skip_space_stay by (by rewrite Hc).
  pose proof (LiteralFacts.tests_of_class c) as Ht. rewrite Hc in Ht.
  destruct Ht as (_ & Hp & Hm & _). unfold read_sign. by rewrite Hp, Hm.
Qed.

Lemma PyLong_minus rt t : PyLong_FromString rt (minus :: t) = after_sign rt (-1) t.
Proof. reflexivity. Qed.

Lemma PyLong_plus rt t : PyLong_FromString rt (plus :: t) = after_sign rt 1 t.
Proof. reflexivity. Qed.

Lemma after_sign_opp rt t : after_sign rt (-1) t = Z.opp <$> after_sign rt 1 t.
Proof.
  unfold after_sign. destruct (long_from_string_base rt t) as [[v s3]|]; [|done].
  destruct (skip_space s3); [|done]. simpl. f_equal. lia.
Qed.

End SignFacts.

(** X14: before a text that begins with a digit, a minus sign negates the
    number [int] returns and a plus sign leaves it as it is; a text that
    is rejected stays rejected with either sign. *)
Theorem sign_prefix (rt : runtime) (c : N) (s : str) (d : Z) :
  Literal.classify rt c = Literal.CDigit d ->
  PyInt.int rt (lit "-" ++ c :: s) = Z.opp <$> PyInt.int rt (c :: s) /\
  PyInt.int rt (lit "+" ++ c :: s) = PyInt.int rt (c :: s).
Proof.
  intros Hc. destruct (SignFacts.transform_head rt c s d Hc) as (c' & t & Ht & Hc').
  unfold PyInt.int.
  change (PyInt.transform rt (lit "-" ++ c :: s))
    with (PyInt.minus :: PyInt.transform rt (c :: s)).
  change (PyInt.transform rt (lit "+" ++ c :: s))
    with (PyInt.plus :: PyInt.transform rt (c :: s)).
  rewrite Ht, SignFacts.PyLong_minus, SignFacts.PyLong_plus.
  rewrite (SignFacts.PyLong_digit_head rt c' t d Hc').
  split; [apply SignFacts.after_sign_opp | done].
Qed.

Lemma sign_prefix_witness :
  PyInt.int sample_runtime (lit "-" ++ lit "12")
  = Z.opp <$> PyInt.int sample_runtime (lit "12") /\
  PyInt.int sample_runtime (lit "+" ++ lit "12") = PyInt.int sample_runtime (lit "12").
Proof. apply (sign_prefix sample_runtime 49%N (lit "2") 1). reflexivity. Defined.

Module ZeroFacts.
Import PyInt Literal.

(** A literal that begins with a digit has no white space in front and no
    sign. *)
Lemma literal_head_digit d cs sg ds :
  literal grouped (CDigit d :: cs) sg ds ->
  sg = 1 /\ exists b sp2,
    CDigit d :: cs = b ++ sp2 /\ grouped b ds /\ Forall (eq CSpace) sp2.
Proof.
  intros (sp1 & s & b & sp2 & Hcs & Hsp1 & Hs & Hg & Hsp2).
  destruct sp1 as [|x sp1].
  - inversion Hs; subst; try discriminate. split; [done|]. by exists b, sp2.
  - apply Forall_cons in Hsp1 as [<- _]. discriminate.
Qed.

Lemma literal_of_body b sp2 ds :
  grouped b ds -> Forall (eq CSpace) sp2 -> literal grouped (b ++ sp2) 1 ds.
Proof.
  intros Hg Hsp2. exists [], [], b, sp2. split_and!; try done; constructor.
Qed.

Lemma decimal_zero ds : decimal (0 :: ds) = decimal ds.
Proof. reflexivity. Qed.

Lemma within_limit_tail rt d ds : within_limit rt (d :: ds) -> within_limit rt ds.
Proof.
  unfold within_limit. apply IntFacts.too_many_digits_le. simpl length. lia.
Qed.

End ZeroFacts.

(** X15: leading zeros do not change the number.  When a text that
    begins with a digit is accepted with a zero put in front, it is
    accepted without it, as the same number; and a text of fewer than 640
    code points that is accepted is accepted with a zero in front, as the
    same number. *)
Theorem leading_zero (rt : runtime) (c : N) (s : str) (d v : Z) :
  Literal.classify rt c = Literal.CDigit d ->
  (PyInt.int rt (lit "0" ++ c :: s) = Some v -> PyInt.int rt (c :: s) = Some v) /\
  ((length (c :: s) < 640)%nat ->
   PyInt.int rt (c :: s) = Some v -> PyInt.int rt (lit "0" ++ c :: s) = Some v).
Proof.
  intros Hc. split.
  - intros H. apply LiteralFacts.int_literal in H as (sg & ds & Hlit & Hl & ->).
    change (List.map (Literal.classify rt) (lit "0" ++ c :: s))
      with (Literal.CDigit 0 :: List.map (Literal.classify rt) (c :: s)) in Hlit.
    apply ZeroFacts.literal_head_digit in Hlit as (-> & b & sp2 & Hb & Hg & Hsp2).
    simpl in Hb. rewrite Hc in Hb.
    inversion Hg as [d0 Hb0 | d0 b1 ds1 Hg1 Hb0 | d0 b1 ds1 Hg1 Hb0]; subst b ds.
    + simpl in Hb. injection Hb as _ Hsp. subst sp2.
      apply Forall_cons in Hsp2 as [[=] _].
    + simpl in Hb. injection Hb as Hd0 Hb. subst d0.
      apply LiteralFacts.int_literal. exists 1, ds1. split_and!.
      * simpl. rewrite Hc, Hb. by apply ZeroFacts.literal_of_body.
      * by eapply ZeroFacts.within_limit_tail.
      * by rewrite ZeroFacts.decimal_zero.
    + simpl in Hb. injection Hb as _ Hus _. discriminate Hus.
  - intros Hlen H. apply LiteralFacts.int_literal in H as (sg & ds & Hlit & Hl & ->).
    pose proof (IntFacts.literal_length _ _ _ Hlit) as Hds.
    rewrite length_map in Hds.
    simpl in Hlit. rewrite Hc in Hlit.
    apply ZeroFacts.literal_head_digit in Hlit as (-> & b & sp2 & Hb & Hg & Hsp2).
    apply LiteralFacts.int_literal. exists 1, (0 :: ds). split_and!.
    + change (List.map (Literal.classify rt) (lit "0" ++ c :: s))
        with (Literal.CDigit 0 :: List.map (Literal.classify rt) (c :: s)).
      simpl. rewrite Hc, Hb.
      apply (ZeroFacts.literal_of_body (Literal.CDigit 0 :: b)); [|done].
      by constructor.
    + apply IntFacts.too_many_digits_small. simpl length in *. lia.
    + by rewrite ZeroFacts.decimal_zero.
Qed.

Lemma leading_zero_witness :
  (PyInt.int sample_runtime (lit "0" ++ lit "7") = Some 7 ->
   PyInt.int sample_runtime (lit "7") = Some 7) /\
  ((length (lit "7") < 640)%nat ->
   PyInt.int sample_runtime (lit "7") = Some 7 ->
   PyInt.int sample_runtime (lit "0" ++ lit "7") = Some 7).
Proof. apply (leading_zero sample_runtime 55%N [] 7 7). reflexivity. Defined.

Module StrFacts.
Import PyInt Literal.

Lemma of_uint_acc_digits u : forall acc,
  Z.pos (Pos.of_uint_acc u acc) = extend (Z.pos acc) (digits_of_uint u).
Proof.
  induction u; intros acc; simpl; [done | rewrite IHu; unfold extend; f_equal; lia ..].
Qed.

Lemma of_uint_digits u : Z.of_N (Pos.of_uint u) = decimal (digits_of_uint u).
Proof.
  induction u; simpl; [done | by rewrite IHu | ..];
    by rewrite of_uint_acc_digits.
Qed.

Lemma length_digits_of_uint u :
  length (digits_of_uint u) = Decimal.nb_digits u.
Proof. induction u; simpl; congruence. Qed.

Lemma digits_of_uint_nonnil u : u <> Decimal.Nil -> digits_of_uint u <> [].
Proof. by destruct u. Qed.

Lemma classes_of_uint rt u :
  List.map (classify rt) (lit (NilEmpty.string_of_uint u))
  = List.map CDigit (digits_of_uint u).
Proof.
  induction u; [done | ..];
    (change (lit (NilEmpty.string_of_uint ?x)) with (lit (NilEmpty.string_of_uint x));
     simpl NilEmpty.string_of_uint; simpl digits_of_uint;
     unfold lit in *; simpl; by rewrite IHu).
Qed.

Lemma digits_of_uint_of_digits ds :
  Forall (fun d => 0 <= d <= 9) ds -> digits_of_uint (uint_of_digits ds) = ds.
Proof.
  induction 1 as [|d ds Hd _ IH]; [done|].
  assert (d = 0 \/ d = 1 \/ d = 2 \/ d = 3 \/ d = 4 \/ d = 5 \/ d = 6 \/ d = 7
          \/ d = 8 \/ d = 9) as Hcases by lia.
  destruct Hcases as [-> | [-> | [-> | [-> | [-> | [-> | [-> | [-> | [-> | ->]]]]]]]]];
    simpl; by rewrite IH.
Qed.

Lemma classify_digit_range rt c d : classify rt c = CDigit d -> 0 <= d <= 9.
Proof.
  unfold classify. destruct (c <? 127)%N.
  - intros Hc. pose proof (LiteralFacts.tests_of_class c) as Ht. rewrite Hc in Ht.
    destruct Ht as (_ & _ & _ & _ & Hd). by apply LiteralFacts.digit_value_range in Hd.
  - destruct (unicode_isspace rt c); [done|].
    destruct (unicode_todecimal rt c) as [d'|]; [|done].
    intros [= <-]. destruct d'; simpl; lia.
Qed.

Lemma grouped_digits b ds : grouped b ds -> forall d, In d ds -> In (CDigit d) b.
Proof.
  induction 1 as [d | d cs ds _ IH | d cs ds _ IH]; intros d' Hin.
  - destruct Hin as [<- | []]. by left.
  - destruct Hin as [<- | Hin]; [by left | right; auto].
  - destruct Hin as [<- | Hin]; [by left | right; right; auto].
Qed.

Lemma literal_digit_range rt s sg ds :
  literal grouped (List.map (classify rt) s) sg ds ->
  Forall (fun d => 0 <= d <= 9) ds /\ ds <> [] /\ (sg = 1 \/ sg = -1).
Proof.
  intros (sp1 & sn & b & sp2 & Hcs & _ & Hs & Hg & _). split_and!.
  - apply List.Forall_forall. intros d Hd.
    apply (grouped_digits _ _ Hg) in Hd.
    assert (Hin : In (CDigit d) (List.map (classify rt) s)).
    { rewrite Hcs, !in_app_iff. auto. }
    apply in_map_iff in Hin as (c & Hc & _). by eapply classify_digit_range.
  - by eapply LiteralFacts.grouped_nonempty.
  - inversion Hs; auto.
Qed.

Lemma extend_nonneg ds :
  Forall (fun d => 0 <= d <= 9) ds -> forall acc, 0 <= acc -> 0 <= extend acc ds.
Proof.
  induction 1 as [|d ds Hd _ IH]; intros acc Hacc; simpl; [done|].
  apply IH. lia.
Qed.

Lemma decimal_nonneg ds : Forall (fun d => 0 <= d <= 9) ds -> 0 <= decimal ds.
Proof. intros H. by apply (extend_nonneg ds H 0). Qed.

End StrFacts.

Module RoundTrip.
Import PyInt Literal.

Lemma string_of_uint_nonnil u :
  u <> Decimal.Nil -> NilZero.string_of_uint u = NilEmpty.string_of_uint u.
Proof. by destruct u. Qed.

Lemma length_lit_uint u :
  length (lit (NilEmpty.string_of_uint u)) = length (digits_of_uint u).
Proof.
  pose proof (f_equal (@length _) (StrFacts.classes_of_uint sample_runtime u)) as H.
  by rewrite !length_map in H.
Qed.

Lemma int_of_digits rt u :
  u <> Decimal.Nil -> within_limit rt (digits_of_uint u) ->
  PyInt.int rt (lit (NilEmpty.string_of_uint u)) = Some (Z.of_N (Pos.of_uint u)) /\
  PyInt.int rt (minus :: lit (NilEmpty.string_of_uint u))
  = Some (- Z.of_N (Pos.of_uint u)).
Proof.
  intros Hu Hl.
  assert (Hg : grouped (List.map CDigit (digits_of_uint u)) (digits_of_uint u)).
  { apply LiteralFacts.plain_grouped. split; [done|].
    by apply StrFacts.digits_of_uint_nonnil. }
  rewrite StrFacts.of_uint_digits. split.
  - apply LiteralFacts.int_literal. exists 1, (digits_of_uint u).
    split_and!; [|done|lia].
    exists [], [], (List.map CDigit (digits_of_uint u)), [].
    rewrite StrFacts.classes_of_uint, app_nil_r.
    split_and!; try done; constructor.
  - apply LiteralFacts.int_literal. exists (-1), (digits_of_uint u).
    split_and!; [|done|lia].
    exists [], [CSign true], (List.map CDigit (digits_of_uint u)), [].
    simpl. rewrite StrFacts.classes_of_uint, app_nil_r.
    split_and!; try done; constructor.
Qed.

(** [int(str(z))] is [z] when the digits of [z] are within the limit. *)
Lemma int_of_int rt z :
  too_many_digits rt (N.of_nat (length (of_int (Z.abs z)))) = false ->
  PyInt.int rt (of_int z) = Some z.
Proof.
  destruct z as [|p|p]; [done | |]; intros Hl.
  - unfold of_int in *. simpl in *.
    pose proof (DecimalPos.Unsigned.to_uint_nonnil p) as Hu.
    rewrite string_of_uint_nonnil in * by done.
    rewrite length_lit_uint in Hl.
    destruct (int_of_digits rt _ Hu Hl) as [-> _].
    by rewrite DecimalPos.Unsigned.of_to.
  - unfold of_int in *. simpl in *.
    pose proof (DecimalPos.Unsigned.to_uint_nonnil p) as Hu.
    rewrite string_of_uint_nonnil in * by done.
    rewrite length_lit_uint in Hl.
    change (lit (String "-" (NilEmpty.string_of_uint (Pos.to_uint p))))
      with (minus :: lit (NilEmpty.string_of_uint (Pos.to_uint p))).
    destruct (int_of_digits rt _ Hu Hl) as [_ ->].
    by rewrite DecimalPos.Unsigned.of_to.
Qed.

(** The decimal form of a number has no more digits than any literal
    that denotes it. *)
Lemma canonical_digits rt s sg ds :
  literal grouped (List.map (classify rt) s) sg ds ->
  (length (of_int (Z.abs (sg * decimal ds))) <= length ds)%nat.
Proof.
  intros Hlit.
  destruct (StrFacts.literal_digit_range _ _ _ _ Hlit) as (Hr & Hne & Hsg).
  pose proof (StrFacts.decimal_nonneg _ Hr) as Hpos.
  assert (Habs : Z.abs (sg * decimal ds) = decimal ds) by (destruct Hsg; subst; lia).
  rewrite Habs. destruct (decimal ds) as [|p|p] eqn:Hp; [|clear Hpos|lia].
  - destruct ds; [done | simpl; lia].
  - unfold of_int. simpl.
    rewrite string_of_uint_nonnil by apply DecimalPos.Unsigned.to_uint_nonnil.
    rewrite length_lit_uint, StrFacts.length_digits_of_uint.
    pose proof (StrFacts.of_uint_digits (uint_of_digits ds)) as Hu.
    rewrite StrFacts.digits_of_uint_of_digits, Hp in Hu by done.
    assert (Hof : Pos.of_uint (uint_of_digits ds) = N.pos p) by lia.
    pose proof (DecimalPos.Unsigned.to_of (uint_of_digits ds)) as Hto.
    rewrite Hof in Hto. simpl in Hto. rewrite Hto.
    assert (Hnil : uint_of_digits ds <> Decimal.Nil).
    { intros Hnil. pose proof (StrFacts.digits_of_uint_of_digits ds Hr) as Hd.
      rewrite Hnil in Hd. simpl in Hd. congruence. }
    pose proof (DecimalFacts.nb_digits_unorm _ Hnil) as Hle.
    rewrite <- (StrFacts.digits_of_uint_of_digits ds Hr) at 2.
    rewrite StrFacts.length_digits_of_uint. lia.
Qed.

Lemma int_reparses rt s v :
  PyInt.int rt s = Some v -> PyInt.int rt (of_int v) = Some v.
Proof.
  intros H. apply LiteralFacts.int_literal in H as (sg & ds & Hlit & Hl & ->).
  apply int_of_int. apply canonical_digits in Hlit.
  eapply IntFacts.too_many_digits_le; [|exact Hl]. lia.
Qed.

End RoundTrip.

(** X16: [int(str(z))] is [z]: the decimal form of an integer, as [str]
    and the f-string give it, reads back as that integer whenever its
    number of digits is within the limit of the interpreter. *)
Theorem int_of_str (rt : runtime) (z : Z) :
  PyInt.too_many_digits rt (N.of_nat (length (of_int (Z.abs z)))) = false ->
  PyInt.int rt (of_int z) = Some z.
Proof. apply RoundTrip.int_of_int. Qed.

Lemma int_of_str_witness : PyInt.int sample_runtime (of_int (-2024)) = Some (-2024).
Proof. apply (int_of_str sample_runtime (-2024)). reflexivity. Defined.

(** X17: on a run whose argument parses, the second print shows the day
    as [str] writes the parsed number, whatever form the argument had
    (white space, sign, leading zeros, underscores), and [int] reads that
    text back as the same day. *)
Theorem day_message_reparses
        (rt : runtime) (argv : list str) (arg : str) (day : Z) (w : world) :
  argv !! 1%nat = Some arg -> PyInt.int rt arg = Some day ->
  issued rt argv w !! 1%nat
  = Some (EPrint [VStr (lit "Running pipeline for day " ++ of_int day)]) /\
  PyInt.int rt (of_int day) = Some day.
Proof.
  intros Harg Hday.
  rewrite RunFacts.issued_eq, Harg, Hday. split; [done|].
  by eapply RoundTrip.int_reparses.
Qed.

Lemma day_message_reparses_witness :
  issued sample_runtime [lit "pipeline.py"; lit " +0_07 "] empty_world !! 1%nat
  = Some (EPrint [VStr (lit "Running pipeline for day " ++ of_int 7)]) /\
  PyInt.int sample_runtime (of_int 7) = Some 7.
Proof.
  apply (day_message_reparses sample_runtime [lit "pipeline.py"; lit " +0_07 "]
                              (lit " +0_07 ") 7 empty_world); reflexivity.
Defined.

Module UnderscoreFacts.
Import PyInt Literal.

Lemma lookup_map {A B} (f : A -> B) (l : list A) (i : nat) :
  List.map f l !! i = f <$> l !! i.
Proof. revert i. induction l as [|x l IH]; intros [|i]; simpl; auto. Qed.

Lemma grouped_underscore b ds : grouped b ds -> forall i,
  b !! i = Some CUnderscore ->
  exists j d1 d2,
    i = S j /\ b !! j = Some (CDigit d1) /\ b !! S i = Some (CDigit d2).
Proof.
  induction 1 as [d | d cs ds Hg IH | d cs ds Hg IH]; intros [|i] Hi;
    try discriminate Hi.
  - simpl in Hi. destruct (IH _ Hi) as (j & d1 & d2 & -> & Hj & Hi').
    by exists (S j), d1, d2.
  - destruct i as [|i].
    + destruct (LiteralFacts.grouped_head _ _ Hg) as (d2 & b' & ->).
      by exists 0%nat, d, d2.
    + simpl in Hi. destruct (IH _ Hi) as (j & d1 & d2 & -> & Hj & Hi').
      by exists (S (S j)), d1, d2.
Qed.

Lemma literal_underscore cs sg ds i :
  literal grouped cs sg ds -> cs !! i = Some CUnderscore ->
  exists j d1 d2,
    i = S j /\ cs !! j = Some (CDigit d1) /\ cs !! S i = Some (CDigit d2).
Proof.
  intros (sp1 & s & b & sp2 & -> & Hsp1 & Hs & Hg & Hsp2) Hi.
  rewrite (app_assoc sp1 s) in *. set (p := sp1 ++ s) in *.
  assert (Hp : forall k, p !! k <> Some CUnderscore).
  { intros k Hk. subst p. apply lookup_app_Some in Hk as [Hk | [_ Hk]].
    - rewrite Forall_lookup in Hsp1. by apply Hsp1 in Hk.
    - inversion Hs as [E | E | E]; rewrite <- E in Hk;
        destruct (k - length sp1)%nat as [|[|?]]; discriminate. }
  apply lookup_app_Some in Hi as [Hi | [Hlen Hi]]; [by apply Hp in Hi|].
  apply lookup_app_Some in Hi as [Hi | [_ Hi]].
  - destruct (grouped_underscore _ _ Hg _ Hi) as (j & d1 & d2 & Hij & Hj & Hi').
    exists (length p + j)%nat, d1, d2. split_and!; [lia | |].
    + rewrite lookup_app_r by lia. apply lookup_app_l_Some.
      by replace (length p + j - length p)%nat with j by lia.
    + rewrite lookup_app_r by lia. apply lookup_app_l_Some.
      by replace (S i - length p)%nat with (S (i - length p)) by lia.
  - rewrite Forall_lookup in Hsp2. by apply Hsp2 in Hi.
Qed.

End UnderscoreFacts.

(** X18: in a text that [int] accepts, an underscore stands only between
    two digits: never first or last, never next to the sign, to white
    space or to another underscore. *)
Theorem underscore_between_digits (rt : runtime) (s : str) (v : Z) (i : nat) :
  PyInt.int rt s = Some v -> s !! i = Some PyInt.underscore ->
  exists j c1 c2 d1 d2,
    i = S j /\
    s !! j = Some c1 /\ Literal.classify rt c1 = Literal.CDigit d1 /\
    s !! S i = Some c2 /\ Literal.classify rt c2 = Literal.CDigit d2.
Proof.
  intros H Hi. apply LiteralFacts.int_literal in H as (sg & ds & Hlit & _).
  unfold str in *.
  assert (Hcls : List.map (Literal.classify rt) s !! i = Some Literal.CUnderscore).
  { by rewrite UnderscoreFacts.lookup_map, Hi. }
  destruct (UnderscoreFacts.literal_underscore _ _ _ _ Hlit Hcls)
    as (j & d1 & d2 & -> & Hj & Hi').
  rewrite UnderscoreFacts.lookup_map in Hj, Hi'.
  destruct (s !! j) as [c1|] eqn:Hc1; [|done].
  destruct (s !! S (S j)) as [c2|] eqn:Hc2; [|done].
  injection Hj as Hj. injection Hi' as Hi'.
  by exists j, c1, c2, d1, d2.
Qed.

Lemma underscore_between_digits_witness :
  exists j c1 c2 d1 d2,
    1%nat = S j /\
    lit "1_0" !! j = Some c1 /\ Literal.classify sample_runtime c1 = Literal.CDigit d1 /\
    lit "1_0" !! 2%nat = Some c2 /\ Literal.classify sample_runtime c2 = Literal.CDigit d2.
Proof.
  apply (underscore_between_digits sample_runtime (lit "1_0") 10 1); reflexivity.
Defined.
